(** * detect_displays.py: display identity derivation and report generation

    A shallow embedding of [detect_displays.py].  Python [str] values are
    modelled by Rocq strings holding their UTF-8 encoding; the two separators
    the script splits on ([#] and the backslash) are ASCII, so splitting the
    encoding splits the text at the same places.  Python [int] is [Z].  The
    standard output is the list of the texts handed to [print], in order; the
    bytes written are each text followed by a newline. *)

From Stdlib Require Import ZArith String Ascii DecimalString DecimalPos DecimalZ Lia.
From stdpp Require Import gmap strings list sorting.

Open Scope string_scope.
Open Scope list_scope.
Open Scope Z_scope.

(** ** Python values, exceptions and the string primitives the script uses *)

Module Py.

(** Exceptions that can travel through the script.  [Exc cls msg] is an
    instance of a subclass of [Exception] whose [str()] is [msg];
    [KeyboardInterrupt] and [SystemExit] derive from [BaseException] only. *)
Inductive exn : Type :=
| Exc (cls msg : string)
| KeyboardInterrupt
| SystemExit (code : Z).

(** [isinstance(e, Exception)] *)
Definition is_Exception (e : exn) : bool :=
  match e with
  | Exc _ _ => true
  | KeyboardInterrupt | SystemExit _ => false
  end.

(** [str(e)], as interpolated by an f-string *)
Definition exn_str (e : exn) : string :=
  match e with
  | Exc _ msg => msg
  | KeyboardInterrupt => ""
  | SystemExit code => NilZero.string_of_int (Z.to_int code)
  end.

Inductive result (A : Type) : Type :=
| Ok (a : A)
| Raise (e : exn).
Arguments Ok {A} a.
Arguments Raise {A} e.

(** The built-in values a caller can pass where a [str] is expected. *)
#[warnings="-register-all"]
Inductive value : Type :=
| None
| Bool (b : bool)
| Int (z : Z)
| Str (s : string)
| Bytes (b : string)
| List (items : list value)
| Tuple (items : list value).

(** [type(v).__name__] *)
Definition type_name (v : value) : string :=
  match v with
  | None => "NoneType"
  | Bool _ => "bool"
  | Int _ => "int"
  | Str _ => "str"
  | Bytes _ => "bytes"
  | List _ => "list"
  | Tuple _ => "tuple"
  end.

(** The newline character, Python's ["\n"]. *)
Definition nl : string := String "010"%char "".

(** [str(n)] for an [int]: decimal digits, a leading [-] when negative. *)
Definition str_int (n : Z) : string := NilZero.string_of_int (Z.to_int n).

(** [s * n] *)
Fixpoint str_mul (s : string) (n : nat) : string :=
  match n with
  | O => ""
  | S k => s +:+ str_mul s k
  end.

(** The format specification [:<w]: pad with spaces on the right up to
    [w] characters (the script only pads ASCII text). *)
Definition ljust (w : nat) (s : string) : string :=
  s +:+ str_mul " " (w - String.length s).

(** [s.split(sep)] for a one-character separator: the pieces between the
    occurrences of [sep]; one more piece than there are separators. *)
Fixpoint str_split (sep : ascii) (s : string) : list string :=
  match s with
  | EmptyString => [""]
  | String c rest =>
      if Ascii.eqb c sep then "" :: str_split sep rest
      else match str_split sep rest with
           | part :: parts => String c part :: parts
           | [] => [String c ""]
           end
  end.

(** [sep.join(parts)] for a one-character separator. *)
Fixpoint str_join (sep : ascii) (parts : list string) : string :=
  match parts with
  | [] => ""
  | [p] => p
  | p :: rest => p +:+ String sep (str_join sep rest)
  end.

(** [c in s] *)
Fixpoint str_contains (c : ascii) (s : string) : bool :=
  match s with
  | EmptyString => false
  | String a rest => Ascii.eqb a c || str_contains c rest
  end.

(** [v.split(sep)]: only [str] has a [split] that takes a [str] separator;
    [bytes.split] rejects it, the other built-ins have no such attribute. *)
Definition split (v : value) (sep : ascii) : result (list string) :=
  match v with
  | Str s => Ok (str_split sep s)
  | Bytes _ => Raise (Exc "TypeError" "a bytes-like object is required, not 'str'")
  | _ => Raise (Exc "AttributeError"
                  ("'" +:+ type_name v +:+ "' object has no attribute 'split'"))
  end.

(** [l[i]]: a negative index counts from the end; out of range raises. *)
Definition getitem {A : Type} (l : list A) (i : Z) : result A :=
  let n := Z.of_nat (length l) in
  let j := if i <? 0 then i + n else i in
  if (0 <=? j) && (j <? n) then
    match l !! Z.to_nat j with
    | Some x => Ok x
    | Datatypes.None => Raise (Exc "IndexError" "list index out of range")
    end
  else Raise (Exc "IndexError" "list index out of range").

(** [try: body  except: handler] with a bare [except], which catches every
    exception, [KeyboardInterrupt] and [SystemExit] included. *)
Definition try_except_all {A : Type} (body : result A) (handler : result A) : result A :=
  match body with
  | Ok a => Ok a
  | Raise _ => handler
  end.

End Py.

Import Py.

#[global] Instance result_ret : MRet result := fun _ a => Ok a.
#[global] Instance result_bind : MBind result := fun _ _ f m =>
  match m with
  | Ok a => f a
  | Raise e => Raise e
  end.

(** ** The script's pure helpers *)

(** [get_orientation_name], lines 68-76 *)
Definition orientations : gmap Z string :=
  {[ 0 := "Landscape (0°)";
     1 := "Portrait (90°)";
     2 := "Landscape Flipped (180°)";
     3 := "Portrait Flipped (270°)" ]}.

Definition get_orientation_name (orientation : Z) : string :=
  default ("Unknown (" +:+ str_int orientation +:+ "°)") (orientations !! orientation).

(** The body of the [try] in [extract_display_id], lines 84-87 *)
Definition extract_display_id_try (device_id : value) : result string :=
  parts ← split device_id "#";
  if 3 <=? Z.of_nat (length parts) then
    p1 ← getitem parts 1;
    p2 ← getitem parts 2;
    mret (p1 +:+ "_" +:+ p2)
  else
    segments ← split device_id "\";
    getitem segments (-1).

(** [extract_display_id], lines 79-89 *)
Definition extract_display_id (device_id : value) : result string :=
  try_except_all (extract_display_id_try device_id) (Ok "UNKNOWN").

(** *** Inputs of any class

    Lines 84-87 only ask their argument for [split], the result of [split]
    for its length and its items, and the items for their formatted text.
    An [object] is a built-in value or an instance of a class with a
    [split] method of its own, which returns a list of objects or raises (a
    result that supports neither [len] nor indexing makes the body raise
    just the same). *)
#[warnings="-register-all"]
Inductive object : Type :=
| Builtin (v : value)
| Instance (cls : string) (split_method : ascii -> result (list object)).

(** [o.split(sep)] *)
Definition object_split (o : object) (sep : ascii) : result (list object) :=
  match o with
  | Builtin v =>
      match split v sep with
      | Ok parts => Ok ((fun p => Builtin (Str p)) <$> parts)
      | Raise e => Raise e
      end
  | Instance _ split_method => split_method sep
  end.

Section AnyClass.

(** [format(o, "")], what a replacement field of an f-string does to [o].
    The protocol is Python's, not the script's: it is left open here, a
    class can make it return any text or raise. *)
Variable format : object -> result string.

(** Lines 84-87 on an input of any class. *)
Definition extract_display_id_try_object (device_id : object) : result object :=
  parts ← object_split device_id "#";
  if 3 <=? Z.of_nat (length parts) then
    p1 ← getitem parts 1;
    s1 ← format p1;
    p2 ← getitem parts 2;
    s2 ← format p2;
    mret (Builtin (Str (s1 +:+ "_" +:+ s2)))
  else
    segments ← object_split device_id "\";
    getitem segments (-1).

(** Lines 79-89 on an input of any class. *)
Definition extract_display_id_object (device_id : object) : result object :=
  try_except_all (extract_display_id_try_object device_id)
                 (Ok (Builtin (Str "UNKNOWN"))).

End AnyClass.

(** An instance of a class whose [split] returns [[1]] for every
    separator. *)
Definition splits_to_one : object :=
  Instance "Device" (fun _ => Ok [Builtin (Int 1)]).

(** A formatting that gives a [str] back unchanged and an [int] in
    decimal, and rejects everything else. *)
Definition format_scalar (o : object) : result string :=
  match o with
  | Builtin (Str s) => Ok s
  | Builtin (Int n) => Ok (str_int n)
  | _ => Raise (Exc "TypeError" "unsupported format string passed to __format__")
  end.

(** The conditional expression of lines 103-104, which the detail block
    prints next to the rotation label. *)
Definition classify_orientation (width height : Z) : string :=
  if width >? height then "Landscape"
  else if width <? height then "Portrait"
  else "Square".

(** The same expression in lower case, lines 136-137 and 153-154. *)
Definition classify_orientation_lower (width height : Z) : string :=
  if width >? height then "landscape"
  else if width <? height then "portrait"
  else "square".

(** ** Records

    [DISPLAY_DEVICE] and [DEVMODE] are the attributes the script reads from
    the objects pywin32 returns; [display_info] is the dict built at lines
    40-55, with its keys as fields. *)

Record DISPLAY_DEVICE : Type := {
  DeviceName : string;
  DeviceString : string;
  DeviceID : string;
  DeviceKey : string;
  StateFlags : Z
}.

Record DEVMODE : Type := {
  PelsWidth : Z;
  PelsHeight : Z;
  Position_x : Z;
  Position_y : Z;
  DisplayFrequency : Z;
  BitsPerPel : Z;
  DisplayOrientation : Z
}.

Record display_info : Type := {
  index : Z;
  device_name : string;
  device_string : string;
  device_id : string;
  device_key : string;
  width : Z;
  height : Z;
  position_x : Z;
  position_y : Z;
  frequency : Z;
  bits_per_pixel : Z;
  orientation : Z;
  is_primary : bool;
  state_flags : Z
}.

(** The two [win32con] flags the script tests (values of wingdi.h). *)
Module win32con.
Definition DISPLAY_DEVICE_ATTACHED_TO_DESKTOP : Z := 1.
Definition DISPLAY_DEVICE_PRIMARY_DEVICE : Z := 4.
End win32con.

(** What the operating system answers during one run.
    [device_answers] holds the outcomes of [EnumDisplayDevices(None, 0)],
    [EnumDisplayDevices(None, 1)], ... in call order: a device object,
    a falsy value ([Datatypes.None]) or a raised exception; a call past the
    end of the list raises [pywintypes.error], which is how pywin32 reports
    the end of the enumeration.  [EnumDisplaySettings] is the outcome of
    reading the current mode of the device with the given name. *)
Record win32api : Type := {
  device_answers : list (result (option DISPLAY_DEVICE));
  EnumDisplaySettings : string -> result DEVMODE
}.

(** [bool(n)] for an [int] *)
Definition truthy (n : Z) : bool := negb (n =? 0).

(** ** [get_display_info], lines 22-65 *)

(** Lines 38-57: the inner [try], whose bare [except: pass] drops the
    display when its settings cannot be read. *)
Definition append_display_info (api : win32api) (device_num : Z)
    (device : DISPLAY_DEVICE) (displays : list display_info) : list display_info :=
  match EnumDisplaySettings api (DeviceName device) with
  | Ok settings =>
      displays ++ [ {| index := device_num;
                       device_name := DeviceName device;
                       device_string := DeviceString device;
                       device_id := DeviceID device;
                       device_key := DeviceKey device;
                       width := PelsWidth settings;
                       height := PelsHeight settings;
                       position_x := Position_x settings;
                       position_y := Position_y settings;
                       frequency := DisplayFrequency settings;
                       bits_per_pixel := BitsPerPel settings;
                       orientation := DisplayOrientation settings;
                       is_primary :=
                         truthy (Z.land (StateFlags device)
                                        win32con.DISPLAY_DEVICE_PRIMARY_DEVICE);
                       state_flags := StateFlags device |} ]
  | Raise _ => displays
  end.

(** The [while True] loop, one iteration per answer of the enumeration.
    [pending] are the answers to the calls not made yet; when it is empty
    the next call raises.  Every exception of the outer [try], whatever its
    class, ends the loop through the bare [except: break]. *)
Fixpoint enumerate_from (api : win32api)
    (pending : list (result (option DISPLAY_DEVICE)))
    (device_num : Z) (displays : list display_info) : list display_info :=
  match pending with
  | [] => displays
  | Raise _ :: _ => displays
  | Ok Datatypes.None :: _ => displays
  | Ok (Some device) :: later =>
      let displays :=
        if truthy (Z.land (StateFlags device)
                          win32con.DISPLAY_DEVICE_ATTACHED_TO_DESKTOP)
        then append_display_info api device_num device displays
        else displays in
      enumerate_from api later (device_num + 1) displays
  end.

Definition get_display_info (api : win32api) : list display_info :=
  enumerate_from api (device_answers api) 0 [].

(** ** Printing

    A computation that prints: it takes the standard output written so far
    and returns its outcome with the output extended. *)

Definition stdout : Type := list string.

Definition M (A : Type) : Type := stdout -> result A * stdout.

#[global] Instance M_ret : MRet M := fun _ a out => (Ok a, out).
#[global] Instance M_bind : MBind M := fun _ _ f m out =>
  match m out with
  | (Ok a, out') => f a out'
  | (Raise e, out') => (Raise e, out')
  end.

(** [print(s)] *)
Definition print (s : string) : M unit := fun out => (Ok tt, out ++ [s]).

(** [raise e] *)
Definition raise {A : Type} (e : exn) : M A := fun out => (Raise e, out).

(** A pure computation that may raise, run inside a printing one. *)
Definition lift {A : Type} (r : result A) : M A := fun out => (r, out).

(** [sys.exit(code)] *)
Definition sys_exit {A : Type} (code : Z) : M A := raise (SystemExit code).

(** [for x in xs: body] *)
Fixpoint for_each {A : Type} (xs : list A) (body : A -> M unit) : M unit :=
  match xs with
  | [] => mret tt
  | x :: rest => body x ;; for_each rest body
  end.

(** The bytes on the standard output: every printed text and its newline. *)
Definition stdout_text (out : stdout) : string :=
  foldr (fun s rest => s +:+ nl +:+ rest) "" out.

(** ** [print_display_report], lines 92-190 *)

(** Lines 102-126: the detail block of one display. *)
Definition print_display_details (display : display_info) : M unit :=
  let primary_text := if is_primary display then " (PRIMARY)" else "" in
  let orientation_text := classify_orientation (width display) (height display) in
  print ("┌" +:+ str_mul "─" 78 +:+ "┐") ;;
  print ("│ Display " +:+ str_int (index display) +:+ ljust 70 primary_text +:+ "│") ;;
  print ("└" +:+ str_mul "─" 78 +:+ "┘") ;;
  simple_id ← lift (extract_display_id (Str (device_id display))) ;
  print ("  Monitor Name:       " +:+ device_string display) ;;
  print ("  Device Name:        " +:+ device_name display) ;;
  print ("  Simple ID:          " +:+ simple_id) ;;
  print ("  Resolution:         " +:+ str_int (width display) +:+ "x"
         +:+ str_int (height display)) ;;
  print ("  Orientation:        " +:+ orientation_text +:+ " ("
         +:+ get_orientation_name (orientation display) +:+ ")") ;;
  print ("  Position:           x:" +:+ str_int (position_x display) +:+ ", y:"
         +:+ str_int (position_y display)) ;;
  print ("  Refresh Rate:       " +:+ str_int (frequency display) +:+ " Hz") ;;
  print ("  Color Depth:        " +:+ str_int (bits_per_pixel display) +:+ "-bit") ;;
  print ("  Primary Display:    " +:+ (if is_primary display then "Yes" else "No")) ;;
  print (nl +:+ "  Full Device ID:") ;;
  print ("    " +:+ device_id display) ;;
  print (nl +:+ "  Registry Key:") ;;
  print ("    " +:+ device_key display) ;;
  print "".

(** Lines 135-142: the folder suggestions of one display. *)
Definition print_folder_suggestion (display : display_info) : M unit :=
  simple_id ← lift (extract_display_id (Str (device_id display))) ;
  let orientation_text := classify_orientation_lower (width display) (height display) in
  print ("Display " +:+ str_int (index display) +:+ ": " +:+ device_string display
         +:+ " (" +:+ str_int (width display) +:+ "x" +:+ str_int (height display)
         +:+ " " +:+ orientation_text +:+ ")") ;;
  print ("  C:\" +:+ simple_id +:+ "_default\video.mp4") ;;
  print ("  C:\" +:+ simple_id +:+ "_trigger\video.mp4") ;;
  print "".

(** Lines 152-157: one entry of the main.js configuration. *)
Definition print_config_entry (display : display_info) : M unit :=
  simple_id ← lift (extract_display_id (Str (device_id display))) ;
  let orientation_text := classify_orientation_lower (width display) (height display) in
  print ("  // " +:+ device_string display +:+ " (" +:+ str_int (width display) +:+ "x"
         +:+ str_int (height display) +:+ " " +:+ orientation_text +:+ ")") ;;
  print ("  '" +:+ simple_id +:+ "': 'your_custom_name',") ;;
  print "".

(** Lines 168-169, 175, 181 and 187: one entry of each alternative method. *)
Definition print_option1_entry (display : display_info) : M unit :=
  simple_id ← lift (extract_display_id (Str (device_id display))) ;
  print ("  '" +:+ simple_id +:+ "': 'folder_name',").

Definition print_option2_entry (display : display_info) : M unit :=
  print ("  '" +:+ str_int (width display) +:+ "x" +:+ str_int (height display)
         +:+ "': 'folder_name',").

Definition print_option3_entry (display : display_info) : M unit :=
  print ("  'x" +:+ str_int (position_x display) +:+ "_y" +:+ str_int (position_y display)
         +:+ "': 'folder_name',").

Definition print_option4_entry (display : display_info) : M unit :=
  print ("  '" +:+ device_string display +:+ "': 'folder_name',").

Definition print_display_report (displays : list display_info) : M unit :=
  print (nl +:+ str_mul "=" 80) ;;
  print (str_mul " " 25 +:+ "DISPLAY DETECTION REPORT") ;;
  print (str_mul "=" 80 +:+ nl) ;;
  print ("Total Displays Found: " +:+ str_int (Z.of_nat (length displays)) +:+ nl) ;;
  for_each displays print_display_details ;;
  print (str_mul "=" 80) ;;
  print (str_mul " " 25 +:+ "FOLDER NAME SUGGESTIONS") ;;
  print (str_mul "=" 80 +:+ nl) ;;
  print ("Create these folders in C:\ for your videos:" +:+ nl) ;;
  for_each displays print_folder_suggestion ;;
  print (str_mul "=" 80) ;;
  print (str_mul " " 22 +:+ "CONFIGURATION FOR main.js") ;;
  print (str_mul "=" 80 +:+ nl) ;;
  print ("Add this to DISPLAY_VIDEO_CONFIG in main.js:" +:+ nl) ;;
  print "const DISPLAY_VIDEO_CONFIG = {" ;;
  for_each displays print_config_entry ;;
  print ("};" +:+ nl) ;;
  print (str_mul "=" 80) ;;
  print (str_mul " " 20 +:+ "ALTERNATIVE IDENTIFICATION METHODS") ;;
  print (str_mul "=" 80 +:+ nl) ;;
  print "Option 1: By Simple ID (Extracted from Device ID)" ;;
  print "const DISPLAY_VIDEO_CONFIG = {" ;;
  for_each displays print_option1_entry ;;
  print ("};" +:+ nl) ;;
  print "Option 2: By Resolution" ;;
  print "const DISPLAY_VIDEO_CONFIG = {" ;;
  for_each displays print_option2_entry ;;
  print ("};" +:+ nl) ;;
  print "Option 3: By Position" ;;
  print "const DISPLAY_VIDEO_CONFIG = {" ;;
  for_each displays print_option3_entry ;;
  print ("};" +:+ nl) ;;
  print "Option 4: By Monitor Name (only if different)" ;;
  print "const DISPLAY_VIDEO_CONFIG = {" ;;
  for_each displays print_option4_entry ;;
  print ("};" +:+ nl) ;;
  print (str_mul "=" 80 +:+ nl).

(** ** [main], lines 193-209, and the [__main__] block, lines 212-222 *)

(** [main] with the report routine it calls left open, so that a statement
    about a run can say whether the routine was entered at all. *)
Definition main_calling (report : list display_info -> M unit) (api : win32api) : M unit :=
  print (nl +:+ "🖥️  Detecting connected displays...") ;;
  let displays := get_display_info api in
  match displays with
  | [] =>
      print (nl +:+ "❌ ERROR: No displays detected!") ;;
      print "Make sure your monitors are connected and turned on." ;;
      sys_exit 1
  | _ :: _ => mret tt
  end ;;
  print ("✅ Found " +:+ str_int (Z.of_nat (length displays)) +:+ " display(s)") ;;
  report displays ;;
  print "Detection complete!" ;;
  print (nl +:+ "💡 TIP: Use the Simple ID or Resolution for your folder names") ;;
  print ("   The Simple ID is stable and unique for each monitor." +:+ nl).

Definition main (api : win32api) : M unit := main_calling print_display_report api.

(** The [try] around [main()] with its two handlers.  [SystemExit] matches
    neither and leaves the block as raised. *)
Definition run_guarded (body : M unit) : M unit := fun out =>
  match body out with
  | (Ok tt, out') => (Ok tt, out')
  | (Raise KeyboardInterrupt, out') =>
      (print (nl +:+ nl +:+ "Detection cancelled by user.") ;; sys_exit 0) out'
  | (Raise (Exc cls msg), out') =>
      (print (nl +:+ "❌ ERROR: " +:+ exn_str (Exc cls msg)) ;;
       print (nl +:+ "If you see import errors, install pywin32:") ;;
       print "  pip install pywin32" ;;
       sys_exit 1) out'
  | (Raise (SystemExit code), out') => (Raise (SystemExit code), out')
  end.

(** Running the file as a script. *)
Definition script (api : win32api) : M unit := run_guarded (main api).

(** The exit status of the process: 0 when the script runs to its end, the
    code of a [SystemExit], 1 when any other exception reaches the
    interpreter. *)
Definition exit_status {A : Type} (outcome : result A) : Z :=
  match outcome with
  | Ok _ => 0
  | Raise (SystemExit code) => code
  | Raise _ => 1
  end.

(** ** Statement helpers *)

(** What a computation prints when it starts on an empty output. *)
Definition printed {A : Type} (m : M A) : stdout := (m []).2.

(** [m] completes normally and does nothing to the output but extend it. *)
Definition prints_only (m : M unit) : Prop :=
  forall out, m out = (Ok tt, out ++ printed m).

(** The record with another rotation code, resp. another raw bitmask. *)
Definition with_orientation (code : Z) (d : display_info) : display_info :=
  {| index := index d; device_name := device_name d;
     device_string := device_string d; device_id := device_id d;
     device_key := device_key d; width := width d; height := height d;
     position_x := position_x d; position_y := position_y d;
     frequency := frequency d; bits_per_pixel := bits_per_pixel d;
     orientation := code; is_primary := is_primary d;
     state_flags := state_flags d |}.

Definition with_state_flags (flags : Z) (d : display_info) : display_info :=
  {| index := index d; device_name := device_name d;
     device_string := device_string d; device_id := device_id d;
     device_key := device_key d; width := width d; height := height d;
     position_x := position_x d; position_y := position_y d;
     frequency := frequency d; bits_per_pixel := bits_per_pixel d;
     orientation := orientation d; is_primary := is_primary d;
     state_flags := flags |}.

(** Two records that agree on every field but [state_flags]. *)
Definition same_but_state_flags (d d' : display_info) : Prop :=
  index d = index d' /\ device_name d = device_name d'
  /\ device_string d = device_string d' /\ device_id d = device_id d'
  /\ device_key d = device_key d' /\ width d = width d' /\ height d = height d'
  /\ position_x d = position_x d' /\ position_y d = position_y d'
  /\ frequency d = frequency d' /\ bits_per_pixel d = bits_per_pixel d'
  /\ orientation d = orientation d' /\ is_primary d = is_primary d'.

(** Every record of the enumeration was built from a device the system
    answered with, and carries that device's bitmask. *)
Definition built_from_answer (api : win32api) (d : display_info) : Prop :=
  exists device,
    Ok (Some device) ∈ device_answers api
    /\ state_flags d = StateFlags device
    /\ is_primary d
       = truthy (Z.land (StateFlags device) win32con.DISPLAY_DEVICE_PRIMARY_DEVICE).

(** The dict of lines 40-55 for the device answered to call number
    [device_num] and its current settings. *)
Definition make_display_info (device_num : Z) (device : DISPLAY_DEVICE)
    (settings : DEVMODE) : display_info :=
  {| index := device_num;
     device_name := DeviceName device;
     device_string := DeviceString device;
     device_id := DeviceID device;
     device_key := DeviceKey device;
     width := PelsWidth settings;
     height := PelsHeight settings;
     position_x := Position_x settings;
     position_y := Position_y settings;
     frequency := DisplayFrequency settings;
     bits_per_pixel := BitsPerPel settings;
     orientation := DisplayOrientation settings;
     is_primary :=
       truthy (Z.land (StateFlags device) win32con.DISPLAY_DEVICE_PRIMARY_DEVICE);
     state_flags := StateFlags device |}.

(** The calls before number [i] all answered with a device object. *)
Definition devices_up_to (answers : list (result (option DISPLAY_DEVICE)))
    (i : nat) : Prop :=
  forall j, (j < i)%nat -> exists device, answers !! j = Some (Ok (Some device)).

(** The device answered to call number [i] is reported: the enumeration
    reaches it, it is attached to the desktop and its settings can be read. *)
Definition reported_at (api : win32api) (answers : list (result (option DISPLAY_DEVICE)))
    (i : nat) (device : DISPLAY_DEVICE) (settings : DEVMODE) : Prop :=
  answers !! i = Some (Ok (Some device))
  /\ devices_up_to answers i
  /\ truthy (Z.land (StateFlags device) win32con.DISPLAY_DEVICE_ATTACHED_TO_DESKTOP) = true
  /\ EnumDisplaySettings api (DeviceName device) = Ok settings.

(** The lines [main] prints around the report when displays were found. *)
Definition found_line (displays : list display_info) : string :=
  "✅ Found " +:+ str_int (Z.of_nat (length displays)) +:+ " display(s)".

Definition closing_lines : stdout :=
  [ "Detection complete!";
    nl +:+ "💡 TIP: Use the Simple ID or Resolution for your folder names";
    "   The Simple ID is stable and unique for each monitor." +:+ nl ].

(** The id the report prints for a display. *)
Definition simple_id_of (display : display_info) : string :=
  match extract_display_id (Str (device_id display)) with
  | Ok simple_id => simple_id
  | Raise _ => "UNKNOWN"
  end.

(** The three lines [main] prints when no display was found. *)
Definition no_displays_output : stdout :=
  [ nl +:+ "🖥️  Detecting connected displays...";
    nl +:+ "❌ ERROR: No displays detected!";
    "Make sure your monitors are connected and turned on." ].

(** An enumeration interrupted by the user during its first call. *)
Definition interrupted_api : win32api :=
  {| device_answers := [Raise KeyboardInterrupt];
     EnumDisplaySettings := fun _ => Raise KeyboardInterrupt |}.

(** A primary landscape display and a secondary portrait one to its right. *)
Definition primary_example : display_info :=
  {| index := 0; device_name := "\\.\DISPLAY1"; device_string := "Generic PnP Monitor";
     device_id := "MONITOR\GSM5BBB#GSM5BBB#4&1a2b3c"; device_key := "\Registry\Machine\0000";
     width := 1920; height := 1080; position_x := 0; position_y := 0;
     frequency := 60; bits_per_pixel := 32; orientation := 0;
     is_primary := true; state_flags := 5 |}.

Definition secondary_example : display_info :=
  {| index := 1; device_name := "\\.\DISPLAY2"; device_string := "Generic PnP Monitor";
     device_id := "MONITOR\DEL4066\0001"; device_key := "\Registry\Machine\0001";
     width := 1080; height := 1920; position_x := 1920; position_y := 0;
     frequency := 60; bits_per_pixel := 32; orientation := 1;
     is_primary := false; state_flags := 1 |}.

(** A machine with the two displays above and, between them, an adapter
    that is not attached to the desktop. *)
Definition example_api : win32api :=
  {| device_answers :=
       [ Ok (Some {| DeviceName := "\\.\DISPLAY1"; DeviceString := "Generic PnP Monitor";
                     DeviceID := "MONITOR\GSM5BBB#GSM5BBB#4&1a2b3c";
                     DeviceKey := "\Registry\Machine\0000"; StateFlags := 5 |});
         Ok (Some {| DeviceName := "\\.\DISPLAY2"; DeviceString := "Mirror Driver";
                     DeviceID := ""; DeviceKey := ""; StateFlags := 8 |});
         Ok (Some {| DeviceName := "\\.\DISPLAY3"; DeviceString := "Generic PnP Monitor";
                     DeviceID := "MONITOR\DEL4066\0001";
                     DeviceKey := "\Registry\Machine\0001"; StateFlags := 1 |}) ];
     EnumDisplaySettings := fun name =>
       if String.eqb name "\\.\DISPLAY1" then
         Ok {| PelsWidth := 1920; PelsHeight := 1080; Position_x := 0; Position_y := 0;
               DisplayFrequency := 60; BitsPerPel := 32; DisplayOrientation := 0 |}
       else if String.eqb name "\\.\DISPLAY3" then
         Ok {| PelsWidth := 1080; PelsHeight := 1920; Position_x := 1920; Position_y := 0;
               DisplayFrequency := 60; BitsPerPel := 32; DisplayOrientation := 1 |}
       else Raise (Exc "error" "EnumDisplaySettings") |}.

(** A machine that reports no display device at all. *)
Definition no_device_api : win32api :=
  {| device_answers := [];
     EnumDisplaySettings := fun _ => Raise (Exc "error" "EnumDisplaySettings") |}.

(** ** Splitting and indexing *)

Section Split.
Variable sep : ascii.

Lemma str_split_not_nil (s : string) : str_split sep s <> [].
Proof.
  induction s as [|c s IH]; simpl; [done|].
  destruct (Ascii.eqb c sep); [done|].
  by destruct (str_split sep s).
Qed.

(** Joining the pieces with the separator gives the text back. *)
Lemma str_join_split (s : string) : str_join sep (str_split sep s) = s.
Proof.
  induction s as [|c s IH]; simpl; [done|].
  pose proof (str_split_not_nil s) as Hne.
  destruct (Ascii.eqb_spec c sep) as [->|Hc];
    destruct (str_split sep s) as [|p ps]; try done.
  - cbn [str_join]. by rewrite <- IH.
  - destruct ps as [|q ps]; cbn [str_join] in *; by rewrite <- IH.
Qed.

(** No piece contains the separator. *)
Lemma str_split_pieces (s : string) :
  Forall (fun p => str_contains sep p = false) (str_split sep s).
Proof.
  induction s as [|c s IH]; simpl.
  - by constructor.
  - destruct (Ascii.eqb c sep) eqn:Hc.
    + by constructor.
    + destruct (str_split sep s) as [|p ps]; [by repeat constructor; simpl; rewrite Hc|].
      inversion_clear IH. constructor; [|done]. simpl. by rewrite Hc.
Qed.

(** A text without separator is its own single piece. *)
Lemma str_split_whole (a : string) :
  str_contains sep a = false -> str_split sep a = [a].
Proof.
  induction a as [|c a IH]; simpl; [done|].
  intros [Hc Ha]%orb_false_elim. rewrite Hc, (IH Ha). done.
Qed.

(** The first separator ends the first piece. *)
Lemma str_split_first (a b : string) :
  str_contains sep a = false ->
  str_split sep (a +:+ String sep b) = a :: str_split sep b.
Proof.
  induction a as [|c a IH]; simpl.
  - intros _. by rewrite Ascii.eqb_refl.
  - intros [Hc Ha]%orb_false_elim. by rewrite Hc, (IH Ha).
Qed.

End Split.

Lemma append_one_char (c : ascii) (s : string) : String c "" +:+ s = String c s.
Proof. reflexivity. Qed.

Lemma getitem_lookup {A : Type} (l : list A) (i : nat) (x : A) :
  l !! i = Some x -> getitem l (Z.of_nat i) = Ok x.
Proof.
  intros Hx. pose proof (lookup_lt_Some _ _ _ Hx) as Hlt.
  unfold getitem.
  destruct (Z.ltb_spec (Z.of_nat i) 0); [lia|].
  destruct (Z.leb_spec 0 (Z.of_nat i)); [|lia].
  destruct (Z.ltb_spec (Z.of_nat i) (Z.of_nat (length l))); [|lia].
  simpl. by rewrite Nat2Z.id, Hx.
Qed.

Lemma getitem_last {A : Type} (l : list A) (x : A) :
  last l = Some x -> getitem l (-1) = Ok x.
Proof.
  rewrite last_lookup. intros Hx.
  pose proof (lookup_lt_Some _ _ _ Hx) as Hlt.
  unfold getitem. simpl.
  destruct (Z.leb_spec 0 (-1 + Z.of_nat (length l))); [|lia].
  destruct (Z.ltb_spec (-1 + Z.of_nat (length l)) (Z.of_nat (length l))); [|lia].
  simpl. replace (Z.to_nat (-1 + Z.of_nat (length l))) with (pred (length l)) by lia.
  by rewrite Hx.
Qed.

(** ** [extract_display_id] *)

Lemma extract_display_id_hash_parts (s p1 p2 : string) :
  str_split "#" s !! 1%nat = Some p1 ->
  str_split "#" s !! 2%nat = Some p2 ->
  extract_display_id (Str s) = Ok (p1 +:+ "_" +:+ p2).
Proof.
  intros H1 H2. pose proof (lookup_lt_Some _ _ _ H2) as Hlen.
  unfold extract_display_id, extract_display_id_try. cbn [split mbind result_bind].
  destruct (Z.leb_spec 3 (Z.of_nat (length (str_split "#" s)))); [|lia].
  pose proof (getitem_lookup _ _ _ H1) as G1.
  pose proof (getitem_lookup _ _ _ H2) as G2.
  change (Z.of_nat 1) with 1 in G1. change (Z.of_nat 2) with 2 in G2.
  by rewrite G1, G2.
Qed.

Lemma extract_display_id_last_segment (s seg : string) :
  (length (str_split "#" s) < 3)%nat ->
  last (str_split "\" s) = Some seg ->
  extract_display_id (Str s) = Ok seg.
Proof.
  intros Hlen Hseg.
  unfold extract_display_id, extract_display_id_try. cbn [split mbind result_bind].
  destruct (Z.leb_spec 3 (Z.of_nat (length (str_split "#" s)))); [lia|].
  by rewrite (getitem_last _ seg Hseg).
Qed.

Lemma last_is_Some {A : Type} (l : list A) : l <> [] -> exists x, last l = Some x.
Proof.
  intros Hne. destruct (last l) as [x|] eqn:E; [by exists x|].
  by apply last_None in E.
Qed.

Lemma extract_display_id_returns (v : value) : exists s, extract_display_id v = Ok s.
Proof.
  destruct v as [| | |s| | |]; try (by exists "UNKNOWN").
  destruct (decide (length (str_split "#" s) < 3)%nat) as [Hshort|Hlong].
  - destruct (last_is_Some (str_split "\" s) (str_split_not_nil _ s)) as [seg Hseg].
    exists seg. by apply extract_display_id_last_segment.
  - destruct (lookup_lt_is_Some_2 (str_split "#" s) 1) as [p1 H1]; [lia|].
    destruct (lookup_lt_is_Some_2 (str_split "#" s) 2) as [p2 H2]; [lia|].
    exists (p1 +:+ "_" +:+ p2). by apply extract_display_id_hash_parts.
Qed.

(** ** Printing computations only extend the output *)

Lemma prints_only_intro (m : M unit) (text : stdout) :
  (forall out, m out = (Ok tt, out ++ text)) -> prints_only m /\ printed m = text.
Proof.
  intros Hm. assert (printed m = text) as Hp by (unfold printed; by rewrite Hm).
  split; [|done]. intros out. by rewrite Hp.
Qed.

Lemma prints_only_print (s : string) : prints_only (print s).
Proof. by apply (prints_only_intro _ [s]). Qed.

Lemma prints_only_ret : prints_only (mret tt).
Proof. apply (prints_only_intro _ []). intros out. by rewrite app_nil_r. Qed.

Lemma prints_only_seq_spec (m k : M unit) :
  prints_only m -> prints_only k ->
  prints_only (m ;; k) /\ printed (m ;; k) = printed m ++ printed k.
Proof.
  intros Hm Hk. apply prints_only_intro. intros out.
  unfold mbind, M_bind. by rewrite Hm, Hk, app_assoc.
Qed.

Lemma prints_only_seq (m k : M unit) :
  prints_only m -> prints_only k -> prints_only (m ;; k).
Proof. intros Hm Hk. apply (prints_only_seq_spec m k Hm Hk). Qed.

Lemma printed_seq (m k : M unit) :
  prints_only m -> prints_only k -> printed (m ;; k) = printed m ++ printed k.
Proof. intros Hm Hk. apply (prints_only_seq_spec m k Hm Hk). Qed.

Lemma prints_only_bind_lift {A : Type} (r : result A) (a : A) (k : A -> M unit) :
  r = Ok a -> prints_only (k a) -> prints_only (lift r ≫= k).
Proof.
  intros -> Hk. apply (prints_only_intro _ (printed (k a))). intros out.
  unfold mbind, M_bind, lift. apply Hk.
Qed.

Lemma prints_only_for_each_spec {A : Type} (xs : list A) (body : A -> M unit) :
  (forall x, prints_only (body x)) ->
  prints_only (for_each xs body)
  /\ printed (for_each xs body) = xs ≫= (fun x => printed (body x)).
Proof.
  intros Hbody. induction xs as [|x xs [IH1 IH2]]; cbn [for_each].
  - split; [apply prints_only_ret | done].
  - split; [by apply prints_only_seq|].
    by rewrite printed_seq, IH2.
Qed.

Lemma prints_only_for_each {A : Type} (xs : list A) (body : A -> M unit) :
  (forall x, prints_only (body x)) -> prints_only (for_each xs body).
Proof. intros Hbody. apply (prints_only_for_each_spec xs body Hbody). Qed.

Ltac prints_only_steps :=
  repeat first
    [ apply prints_only_print
    | apply prints_only_ret
    | eapply prints_only_bind_lift; [eassumption|]
    | apply prints_only_seq
    | apply prints_only_for_each; intros ? ].

Ltac with_simple_id display :=
  let id := fresh "simple_id" in
  let Hid := fresh "Hid" in
  destruct (extract_display_id_returns (Str (device_id display))) as [id Hid].

Lemma print_display_details_prints_only (d : display_info) :
  prints_only (print_display_details d).
Proof. with_simple_id d. unfold print_display_details. prints_only_steps. Qed.

Lemma print_folder_suggestion_prints_only (d : display_info) :
  prints_only (print_folder_suggestion d).
Proof. with_simple_id d. unfold print_folder_suggestion. prints_only_steps. Qed.

Lemma print_config_entry_prints_only (d : display_info) :
  prints_only (print_config_entry d).
Proof. with_simple_id d. unfold print_config_entry. prints_only_steps. Qed.

Lemma print_option1_entry_prints_only (d : display_info) :
  prints_only (print_option1_entry d).
Proof. with_simple_id d. unfold print_option1_entry. prints_only_steps. Qed.

Lemma print_option2_entry_prints_only (d : display_info) :
  prints_only (print_option2_entry d).
Proof. apply prints_only_print. Qed.

Lemma print_option3_entry_prints_only (d : display_info) :
  prints_only (print_option3_entry d).
Proof. apply prints_only_print. Qed.

Lemma print_option4_entry_prints_only (d : display_info) :
  prints_only (print_option4_entry d).
Proof. apply prints_only_print. Qed.

Create HintDb report.

#[local] Hint Resolve print_display_details_prints_only
  print_folder_suggestion_prints_only print_config_entry_prints_only
  print_option1_entry_prints_only print_option2_entry_prints_only
  print_option3_entry_prints_only print_option4_entry_prints_only : report.

(** The report never raises: it runs to its end and only adds lines. *)
Lemma print_display_report_prints_only (displays : list display_info) :
  prints_only (print_display_report displays).
Proof.
  unfold print_display_report.
  repeat first
    [ apply prints_only_print
    | apply prints_only_seq
    | apply prints_only_for_each; auto with report ].
Qed.

(** ** The pure helpers *)

(** C1. For a [device_id] string whose [#]-split has at least 3 parts,
    [extract_display_id] returns [parts[1] + "_" + parts[2]]; when the split
    has fewer than 3 parts it returns the last backslash-delimited segment.
    The two inputs of the specification give ["GSM5BBB_4&1a2b3c&0&UID123"]
    and ["C"]. *)
Theorem C1_extract_display_id_parts (device_id : string) :
  ((3 <= length (str_split "#" device_id))%nat ->
   exists p1 p2,
     str_split "#" device_id !! 1%nat = Some p1
     /\ str_split "#" device_id !! 2%nat = Some p2
     /\ extract_display_id (Str device_id) = Ok (p1 +:+ "_" +:+ p2))
  /\ ((length (str_split "#" device_id) < 3)%nat ->
      exists segment,
        last (str_split "\" device_id) = Some segment
        /\ extract_display_id (Str device_id) = Ok segment)
  /\ extract_display_id (Str "\\?\DISPLAY#GSM5BBB#4&1a2b3c&0&UID123#{guid}")
     = Ok "GSM5BBB_4&1a2b3c&0&UID123"
  /\ extract_display_id (Str "A\B\C") = Ok "C".
Proof.
  split; [|split; [|split; reflexivity]].
  - intros Hlen.
    destruct (lookup_lt_is_Some_2 (str_split "#" device_id) 1) as [p1 H1]; [lia|].
    destruct (lookup_lt_is_Some_2 (str_split "#" device_id) 2) as [p2 H2]; [lia|].
    exists p1, p2. auto using extract_display_id_hash_parts.
  - intros Hlen.
    destruct (last_is_Some (str_split "\" device_id) (str_split_not_nil _ _))
      as [segment Hseg].
    exists segment. auto using extract_display_id_last_segment.
Qed.

Lemma C1_extract_display_id_parts_witness :
  exists p1 p2,
    str_split "#" "a#b#c#d" !! 1%nat = Some p1
    /\ str_split "#" "a#b#c#d" !! 2%nat = Some p2
    /\ extract_display_id (Str "a#b#c#d") = Ok (p1 +:+ "_" +:+ p2).
Proof.
  apply (proj1 (C1_extract_display_id_parts "a#b#c#d")). simpl. lia.
Defined.

(** In terms of the text itself: when the text starts with three pieces
    free of [#], the result is the second and the third joined by [_],
    whatever follows the third. *)
Lemma extract_display_id_second_third (a b c : string) :
  str_contains "#" a = false -> str_contains "#" b = false ->
  str_contains "#" c = false ->
  extract_display_id (Str (a +:+ "#" +:+ b +:+ "#" +:+ c)) = Ok (b +:+ "_" +:+ c)
  /\ forall rest,
       extract_display_id (Str (a +:+ "#" +:+ b +:+ "#" +:+ c +:+ "#" +:+ rest))
       = Ok (b +:+ "_" +:+ c).
Proof.
  intros Ha Hb Hc. split; [|intros rest];
    apply extract_display_id_hash_parts;
    rewrite !append_one_char;
    rewrite (str_split_first _ a _ Ha), (str_split_first _ b _ Hb); cbn [lookup list_lookup].
  - done.
  - by rewrite (str_split_whole _ c Hc).
  - done.
  - by rewrite (str_split_first _ c _ Hc).
Qed.

(** C2 as stated fails on the empty string: no exception is raised there,
    so the handler that returns ["UNKNOWN"] is not entered. *)
Lemma C2_empty_string_not_unknown : extract_display_id (Str "") <> Ok "UNKNOWN".
Proof. discriminate. Qed.

(** C2, amended. For [None], [extract_display_id] returns exactly
    ["UNKNOWN"]; for the empty string it returns the empty string. *)
Theorem C2_extract_display_id_none_and_empty :
  extract_display_id None = Ok "UNKNOWN" /\ extract_display_id (Str "") = Ok "".
Proof. split; reflexivity. Qed.

Lemma getitem_fmap {A B : Type} (f : A -> B) (l : list A) (i : Z) :
  getitem (f <$> l) i
  = match getitem l i with Ok x => Ok (f x) | Raise e => Raise e end.
Proof.
  unfold getitem. rewrite length_fmap, list_lookup_fmap.
  destruct (_ && _); [|done]. by destruct (l !! _).
Qed.

(** On a built-in value the embedding for inputs of any class is the one
    used everywhere else. *)
Lemma extract_display_id_object_builtin (format : object -> result string) (v : value) :
  (forall s, format (Builtin (Str s)) = Ok s) ->
  extract_display_id_object format (Builtin v)
  = (s ← extract_display_id v; mret (Builtin (Str s))).
Proof.
  intros Hformat. destruct v as [| | |s| | |]; try reflexivity.
  unfold extract_display_id_object, extract_display_id,
    extract_display_id_try_object, extract_display_id_try.
  cbn [object_split split mbind mret result_bind result_ret].
  rewrite length_fmap, !getitem_fmap.
  destruct (3 <=? Z.of_nat (length (str_split "#" s))).
  - destruct (getitem (str_split "#" s) 1) as [p1|e]; [|done].
    unfold mbind at 1 2, result_bind. rewrite Hformat.
    destruct (getitem (str_split "#" s) 2) as [p2|e]; [|done].
    unfold mbind at 1 2, result_bind. by rewrite Hformat.
  - by destruct (getitem (str_split "\" s) (-1)).
Qed.

(** C10 as stated fails for an input that is not a built-in value: the
    [split] of an instance can return a list whose last item is not a
    string, and with fewer than 3 items line 87 returns that item as it
    is, without any exception for the handler to catch. *)
Lemma C10_own_split_returns_non_string :
  extract_display_id_object format_scalar splits_to_one = Ok (Builtin (Int 1))
  /\ ~ (forall o, exists s,
          extract_display_id_object format_scalar o = Ok (Builtin (Str s))).
Proof.
  split; [reflexivity|].
  intros Hall. destruct (Hall splits_to_one) as [s Hs]. discriminate Hs.
Qed.

(** C10, amended. [extract_display_id] never propagates an exception,
    whatever the class of its input and whatever formatting does: each
    failure inside the [try] is caught and mapped to ["UNKNOWN"].  For every
    built-in value (None, bool, int, str, bytes, list, tuple) the result is
    a string.  [None] is an input on which the body raises
    ([AttributeError]). *)
Theorem C10_extract_display_id_total (format : object -> result string)
    (Hformat : forall s, format (Builtin (Str s)) = Ok s) (o : object) :
  (exists r, extract_display_id_object format o = Ok r)
  /\ (forall e, extract_display_id_try_object format o = Raise e ->
                extract_display_id_object format o = Ok (Builtin (Str "UNKNOWN")))
  /\ (forall v, o = Builtin v ->
       exists s, extract_display_id v = Ok s
                 /\ extract_display_id_object format o = Ok (Builtin (Str s)))
  /\ (forall v e, extract_display_id_try v = Raise e ->
                  extract_display_id v = Ok "UNKNOWN")
  /\ extract_display_id_try None
     = Raise (Exc "AttributeError" "'NoneType' object has no attribute 'split'").
Proof.
  split; [|split; [|split; [|split; [|reflexivity]]]].
  - unfold extract_display_id_object.
    destruct (extract_display_id_try_object format o) as [r|e]; eexists; reflexivity.
  - intros e He. unfold extract_display_id_object. by rewrite He.
  - intros v ->. destruct (extract_display_id_returns v) as [s Hs].
    exists s. split; [done|].
    by rewrite (extract_display_id_object_builtin format v Hformat), Hs.
  - intros v e He. unfold extract_display_id. by rewrite He.
Qed.

Lemma C10_extract_display_id_total_witness :
  extract_display_id_object format_scalar (Builtin (Bytes "a#b#c"))
  = Ok (Builtin (Str "UNKNOWN")).
Proof.
  refine (proj1 (proj2 (C10_extract_display_id_total format_scalar _
                          (Builtin (Bytes "a#b#c"))))
            (Exc "TypeError" "a bytes-like object is required, not 'str'") _).
  - reflexivity.
  - reflexivity.
Defined.

Lemma print_display_details_orientation_line (d : display_info) :
  printed (print_display_details d) !! 7%nat
  = Some ("  Orientation:        " +:+ classify_orientation (width d) (height d)
          +:+ " (" +:+ get_orientation_name (orientation d) +:+ ")").
Proof.
  with_simple_id d.
  unfold printed, print_display_details, mbind, M_bind, lift, print.
  rewrite Hid. reflexivity.
Qed.

(** C3. For positive [width] and [height], the word the report prints for
    the geometry is "Landscape" when width > height, "Portrait" when
    width < height and "Square" when they are equal; 1920x1080, 1080x1920
    and 500x500 give the three words.  The word does not depend on the
    rotation code: in the detail block of a display of that size, whatever
    its rotation code, the orientation line is this word followed by the
    label of the code. *)
Theorem C3_classify_orientation (w h : Z) (Hw : 0 < w) (Hh : 0 < h) :
  (w > h -> classify_orientation w h = "Landscape")
  /\ (w < h -> classify_orientation w h = "Portrait")
  /\ (w = h -> classify_orientation w h = "Square")
  /\ classify_orientation 1920 1080 = "Landscape"
  /\ classify_orientation 1080 1920 = "Portrait"
  /\ classify_orientation 500 500 = "Square"
  /\ forall (d : display_info) (code : Z),
       width d = w -> height d = h ->
       printed (print_display_details (with_orientation code d)) !! 7%nat
       = Some ("  Orientation:        " +:+ classify_orientation w h
               +:+ " (" +:+ get_orientation_name code +:+ ")").
Proof.
  unfold classify_orientation at 1 2 3.
  repeat split; try reflexivity.
  - intros Hgt. by destruct (Z.gtb_spec w h); [|lia].
  - intros Hlt. destruct (Z.gtb_spec w h); [lia|]. by destruct (Z.ltb_spec w h); [|lia].
  - intros Heq. destruct (Z.gtb_spec w h); [lia|]. by destruct (Z.ltb_spec w h); [lia|].
  - intros d code <- <-. apply (print_display_details_orientation_line (with_orientation code d)).
Qed.

Lemma C3_classify_orientation_witness :
  classify_orientation 1280 1024 = "Landscape".
Proof.
  apply (C3_classify_orientation 1280 1024); lia.
Defined.

(** C4. [get_orientation_name] maps 0, 1, 2 and 3 to the four fixed
    labels and every other integer to "Unknown (<code>°)", the code in
    decimal; 99 gives "Unknown (99°)". *)
Theorem C4_get_orientation_name (code : Z) :
  get_orientation_name code
  = match code with
    | 0 => "Landscape (0°)"
    | 1 => "Portrait (90°)"
    | 2 => "Landscape Flipped (180°)"
    | 3 => "Portrait Flipped (270°)"
    | _ => "Unknown (" +:+ str_int code +:+ "°)"
    end
  /\ get_orientation_name 99 = "Unknown (99°)".
Proof.
  split; [|reflexivity].
  destruct (decide (code = 0)) as [->|H0]; [reflexivity|].
  destruct (decide (code = 1)) as [->|H1]; [reflexivity|].
  destruct (decide (code = 2)) as [->|H2]; [reflexivity|].
  destruct (decide (code = 3)) as [->|H3]; [reflexivity|].
  unfold get_orientation_name, orientations.
  rewrite !lookup_insert_ne, lookup_singleton_ne by done.
  destruct code as [|[[q|q|]|[q|q|]|]|q]; done.
Qed.

(** ** [main] and the script *)

Lemma main_calling_no_displays (report : list display_info -> M unit)
    (api : win32api) (out : stdout) :
  get_display_info api = [] ->
  main_calling report api out = (Raise (SystemExit 1), out ++ no_displays_output).
Proof.
  intros Hnone. unfold main_calling. rewrite Hnone.
  unfold mbind, M_bind, print, sys_exit, raise, no_displays_output.
  cbn [app]. by rewrite <- !app_assoc.
Qed.

(** What the two handlers of the [__main__] block do with an exception
    that reaches them. *)
Lemma run_guarded_KeyboardInterrupt (body : M unit) (out out' : stdout) :
  body out = (Raise KeyboardInterrupt, out') ->
  run_guarded body out
  = (Raise (SystemExit 0), out' ++ [nl +:+ nl +:+ "Detection cancelled by user."]).
Proof. intros Hbody. unfold run_guarded. by rewrite Hbody. Qed.

Lemma run_guarded_Exception (body : M unit) (out out' : stdout) (cls msg : string) :
  body out = (Raise (Exc cls msg), out') ->
  run_guarded body out
  = (Raise (SystemExit 1),
     out' ++ [ nl +:+ "❌ ERROR: " +:+ msg;
               nl +:+ "If you see import errors, install pywin32:";
               "  pip install pywin32" ]).
Proof.
  intros Hbody. unfold run_guarded. rewrite Hbody.
  unfold mbind, M_bind, print, sys_exit, raise. cbn [exn_str app].
  by rewrite <- !app_assoc.
Qed.

Lemma run_guarded_SystemExit (body : M unit) (out out' : stdout) (code : Z) :
  body out = (Raise (SystemExit code), out') ->
  run_guarded body out = (Raise (SystemExit code), out').
Proof. intros Hbody. unfold run_guarded. by rewrite Hbody. Qed.

(** C5. When the enumeration returns no display, [main] prints the
    no-displays error and ends with [SystemExit(1)], so the process exits
    with status 1; the outcome is the same whatever routine stands in for
    [print_display_report], which is therefore not entered. *)
Theorem C5_main_no_displays (api : win32api) (out : stdout)
    (Hnone : get_display_info api = []) :
  main api out = (Raise (SystemExit 1), out ++ no_displays_output)
  /\ (forall report,
        main_calling report api out = (Raise (SystemExit 1), out ++ no_displays_output))
  /\ script api out = (Raise (SystemExit 1), out ++ no_displays_output)
  /\ exit_status (script api out).1 = 1
  /\ no_displays_output !! 1%nat = Some (nl +:+ "❌ ERROR: No displays detected!").
Proof.
  assert (forall report,
            main_calling report api out
            = (Raise (SystemExit 1), out ++ no_displays_output)) as Hmain
    by (intros report; by apply main_calling_no_displays).
  assert (script api out = (Raise (SystemExit 1), out ++ no_displays_output)) as Hscript
    by (apply run_guarded_SystemExit, Hmain).
  repeat split; [apply Hmain | apply Hmain | apply Hscript | by rewrite Hscript].
Qed.

Lemma C5_main_no_displays_witness :
  main no_device_api [] = (Raise (SystemExit 1), [] ++ no_displays_output).
Proof.
  apply (C5_main_no_displays no_device_api []). reflexivity.
Defined.

(** C8, at an interrupt that arrives during the first
    [EnumDisplayDevices] call: the bare [except] of the enumeration loop
    takes the [KeyboardInterrupt] for the end of the enumeration, [main]
    reports that no display was found, and the process exits with status 1
    without the cancellation notice. *)
Theorem C8_interrupt_during_enumeration :
  script interrupted_api [] = (Raise (SystemExit 1), no_displays_output)
  /\ exit_status (script interrupted_api []).1 = 1
  /\ nl +:+ nl +:+ "Detection cancelled by user." ∉ (script interrupted_api []).2.
Proof.
  assert (script interrupted_api [] = (Raise (SystemExit 1), no_displays_output)) as H
    by reflexivity.
  rewrite H. repeat split. cbn [snd]. unfold no_displays_output.
  rewrite !elem_of_cons, elem_of_nil. intros [E|[E|[E|[]]]]; discriminate E.
Qed.

(** With at least one display, [main] runs to its end; so an exception
    raised by an operating-system call never leaves [main], which ends
    normally or with [SystemExit(1)]. *)
Lemma main_outcome (api : win32api) (out : stdout) :
  (main api out).1 = Ok tt \/ (main api out).1 = Raise (SystemExit 1).
Proof.
  destruct (get_display_info api) as [|d ds] eqn:Hds.
  - right. unfold main. by rewrite main_calling_no_displays.
  - left. assert (prints_only (main api)) as Hmain.
    { unfold main, main_calling. rewrite Hds.
      pose proof (print_display_report_prints_only (d :: ds)).
      repeat first [ assumption | apply prints_only_print | apply prints_only_ret
                   | apply prints_only_seq ]. }
    by rewrite Hmain.
Qed.

(** ** The report *)

Lemma str_append_assoc (a b c : string) : (a +:+ b) +:+ c = a +:+ (b +:+ c).
Proof.
  induction a as [|x a IH]; [done|].
  change (String x ((a +:+ b) +:+ c) = String x (a +:+ (b +:+ c))). by rewrite IH.
Qed.

Lemma stdout_text_app (out out' : stdout) :
  stdout_text (out ++ out') = stdout_text out +:+ stdout_text out'.
Proof.
  induction out as [|s out IH]; [done|].
  cbn [app stdout_text foldr]. fold (stdout_text (out ++ out')). rewrite IH.
  fold (stdout_text out). by rewrite !str_append_assoc.
Qed.

(** C6. [print_display_report] is deterministic: the lines it prints are a
    function of the input sequence alone.  Every run on the same sequence
    completes normally and adds the same lines to whatever was printed
    before, two runs in a row add them twice, and the bytes written are the
    bytes of these lines. *)
Theorem C6_print_display_report_deterministic (displays : list display_info) :
  exists lines : stdout,
    (forall out, print_display_report displays out = (Ok tt, out ++ lines))
    /\ (forall out,
          (print_display_report displays ;; print_display_report displays) out
          = (Ok tt, out ++ lines ++ lines))
    /\ (forall out, stdout_text (out ++ lines) = stdout_text out +:+ stdout_text lines).
Proof.
  pose proof (print_display_report_prints_only displays) as Hrep.
  exists (printed (print_display_report displays)).
  split; [exact Hrep|]. split; [|intros out; apply stdout_text_app].
  intros out. rewrite (prints_only_seq _ _ Hrep Hrep out).
  by rewrite (printed_seq _ _ Hrep Hrep).
Qed.

Lemma printed_print (s : string) : printed (print s) = [s].
Proof. reflexivity. Qed.

Lemma printed_for_each {A : Type} (xs : list A) (body : A -> M unit) :
  (forall x, prints_only (body x)) ->
  printed (for_each xs body) = xs ≫= (fun x => printed (body x)).
Proof. intros Hbody. apply (prints_only_for_each_spec xs body Hbody). Qed.

Ltac report_prints_only :=
  repeat first
    [ apply prints_only_print
    | apply prints_only_seq
    | apply prints_only_for_each; auto with report ].

(** The lines of the report, section by section. *)
Lemma print_display_report_printed (displays : list display_info) :
  printed (print_display_report displays)
  = [ nl +:+ str_mul "=" 80;
      str_mul " " 25 +:+ "DISPLAY DETECTION REPORT";
      str_mul "=" 80 +:+ nl;
      "Total Displays Found: " +:+ str_int (Z.of_nat (length displays)) +:+ nl ]
    ++ (displays ≫= (fun d => printed (print_display_details d)))
    ++ [ str_mul "=" 80;
         str_mul " " 25 +:+ "FOLDER NAME SUGGESTIONS";
         str_mul "=" 80 +:+ nl;
         "Create these folders in C:\ for your videos:" +:+ nl ]
    ++ (displays ≫= (fun d => printed (print_folder_suggestion d)))
    ++ [ str_mul "=" 80;
         str_mul " " 22 +:+ "CONFIGURATION FOR main.js";
         str_mul "=" 80 +:+ nl;
         "Add this to DISPLAY_VIDEO_CONFIG in main.js:" +:+ nl;
         "const DISPLAY_VIDEO_CONFIG = {" ]
    ++ (displays ≫= (fun d => printed (print_config_entry d)))
    ++ [ "};" +:+ nl;
         str_mul "=" 80;
         str_mul " " 20 +:+ "ALTERNATIVE IDENTIFICATION METHODS";
         str_mul "=" 80 +:+ nl;
         "Option 1: By Simple ID (Extracted from Device ID)";
         "const DISPLAY_VIDEO_CONFIG = {" ]
    ++ (displays ≫= (fun d => printed (print_option1_entry d)))
    ++ [ "};" +:+ nl; "Option 2: By Resolution"; "const DISPLAY_VIDEO_CONFIG = {" ]
    ++ (displays ≫= (fun d => printed (print_option2_entry d)))
    ++ [ "};" +:+ nl; "Option 3: By Position"; "const DISPLAY_VIDEO_CONFIG = {" ]
    ++ (displays ≫= (fun d => printed (print_option3_entry d)))
    ++ [ "};" +:+ nl; "Option 4: By Monitor Name (only if different)";
         "const DISPLAY_VIDEO_CONFIG = {" ]
    ++ (displays ≫= (fun d => printed (print_option4_entry d)))
    ++ [ "};" +:+ nl; str_mul "=" 80 +:+ nl ].
Proof.
  unfold print_display_report.
  repeat (rewrite printed_seq by report_prints_only).
  rewrite !printed_for_each by auto with report.
  rewrite !printed_print.
  cbn [app]. rewrite <- ?app_assoc. reflexivity.
Qed.

Lemma print_display_details_length (d : display_info) :
  length (printed (print_display_details d)) = 17%nat.
Proof.
  with_simple_id d.
  unfold printed, print_display_details, mbind, M_bind, lift, print.
  rewrite Hid. reflexivity.
Qed.

Lemma print_folder_suggestion_printed (d : display_info) (id : string) :
  extract_display_id (Str (device_id d)) = Ok id ->
  printed (print_folder_suggestion d)
  = [ "Display " +:+ str_int (index d) +:+ ": " +:+ device_string d
        +:+ " (" +:+ str_int (width d) +:+ "x" +:+ str_int (height d)
        +:+ " " +:+ classify_orientation_lower (width d) (height d) +:+ ")";
      "  C:\" +:+ id +:+ "_default\video.mp4";
      "  C:\" +:+ id +:+ "_trigger\video.mp4";
      "" ].
Proof.
  intros Hid. unfold printed, print_folder_suggestion, mbind, M_bind, lift, print.
  rewrite Hid. reflexivity.
Qed.

Lemma print_config_entry_printed (d : display_info) (id : string) :
  extract_display_id (Str (device_id d)) = Ok id ->
  printed (print_config_entry d)
  = [ "  // " +:+ device_string d +:+ " (" +:+ str_int (width d) +:+ "x"
        +:+ str_int (height d) +:+ " "
        +:+ classify_orientation_lower (width d) (height d) +:+ ")";
      "  '" +:+ id +:+ "': 'your_custom_name',";
      "" ].
Proof.
  intros Hid. unfold printed, print_config_entry, mbind, M_bind, lift, print.
  rewrite Hid. reflexivity.
Qed.

Lemma print_option1_entry_printed (d : display_info) (id : string) :
  extract_display_id (Str (device_id d)) = Ok id ->
  printed (print_option1_entry d) = [ "  '" +:+ id +:+ "': 'folder_name'," ].
Proof.
  intros Hid. unfold printed, print_option1_entry, mbind, M_bind, lift, print.
  rewrite Hid. reflexivity.
Qed.

(** C7. For a primary 1920x1080 display at (0,0) followed by a secondary
    1080x1920 display at (1920,0), the report ends, after the header and the
    two detail blocks (38 lines), with: the folder suggestions, one entry
    per display in enumeration order, each with its [_default] and
    [_trigger] path; the main.js configuration; and the four alternative
    methods, each with exactly two entries, keyed by the simple id, by
    ["<width>x<height>"], by ["x<position_x>_y<position_y>"] and by the
    device string. *)
Theorem C7_two_display_report (d1 d2 : display_info)
    (Hp1 : is_primary d1 = true) (Hw1 : width d1 = 1920) (Hh1 : height d1 = 1080)
    (Hx1 : position_x d1 = 0) (Hy1 : position_y d1 = 0)
    (Hp2 : is_primary d2 = false) (Hw2 : width d2 = 1080) (Hh2 : height d2 = 1920)
    (Hx2 : position_x d2 = 1920) (Hy2 : position_y d2 = 0) :
  exists (id1 id2 : string) (before : stdout),
    extract_display_id (Str (device_id d1)) = Ok id1
    /\ extract_display_id (Str (device_id d2)) = Ok id2
    /\ length before = 38%nat
    /\ forall out,
         print_display_report [d1; d2] out
         = (Ok tt,
            out ++ before ++
            [ str_mul "=" 80;
              str_mul " " 25 +:+ "FOLDER NAME SUGGESTIONS";
              str_mul "=" 80 +:+ nl;
              "Create these folders in C:\ for your videos:" +:+ nl;
              "Display " +:+ str_int (index d1) +:+ ": " +:+ device_string d1
                +:+ " (1920x1080 landscape)";
              "  C:\" +:+ id1 +:+ "_default\video.mp4";
              "  C:\" +:+ id1 +:+ "_trigger\video.mp4";
              "";
              "Display " +:+ str_int (index d2) +:+ ": " +:+ device_string d2
                +:+ " (1080x1920 portrait)";
              "  C:\" +:+ id2 +:+ "_default\video.mp4";
              "  C:\" +:+ id2 +:+ "_trigger\video.mp4";
              "";
              str_mul "=" 80;
              str_mul " " 22 +:+ "CONFIGURATION FOR main.js";
              str_mul "=" 80 +:+ nl;
              "Add this to DISPLAY_VIDEO_CONFIG in main.js:" +:+ nl;
              "const DISPLAY_VIDEO_CONFIG = {";
              "  // " +:+ device_string d1 +:+ " (1920x1080 landscape)";
              "  '" +:+ id1 +:+ "': 'your_custom_name',";
              "";
              "  // " +:+ device_string d2 +:+ " (1080x1920 portrait)";
              "  '" +:+ id2 +:+ "': 'your_custom_name',";
              "";
              "};" +:+ nl;
              str_mul "=" 80;
              str_mul " " 20 +:+ "ALTERNATIVE IDENTIFICATION METHODS";
              str_mul "=" 80 +:+ nl;
              "Option 1: By Simple ID (Extracted from Device ID)";
              "const DISPLAY_VIDEO_CONFIG = {";
              "  '" +:+ id1 +:+ "': 'folder_name',";
              "  '" +:+ id2 +:+ "': 'folder_name',";
              "};" +:+ nl;
              "Option 2: By Resolution";
              "const DISPLAY_VIDEO_CONFIG = {";
              "  '1920x1080': 'folder_name',";
              "  '1080x1920': 'folder_name',";
              "};" +:+ nl;
              "Option 3: By Position";
              "const DISPLAY_VIDEO_CONFIG = {";
              "  'x0_y0': 'folder_name',";
              "  'x1920_y0': 'folder_name',";
              "};" +:+ nl;
              "Option 4: By Monitor Name (only if different)";
              "const DISPLAY_VIDEO_CONFIG = {";
              "  '" +:+ device_string d1 +:+ "': 'folder_name',";
              "  '" +:+ device_string d2 +:+ "': 'folder_name',";
              "};" +:+ nl;
              str_mul "=" 80 +:+ nl ]).
Proof.
  destruct (extract_display_id_returns (Str (device_id d1))) as [id1 Hid1].
  destruct (extract_display_id_returns (Str (device_id d2))) as [id2 Hid2].
  exists id1, id2.
  exists ([ nl +:+ str_mul "=" 80;
            str_mul " " 25 +:+ "DISPLAY DETECTION REPORT";
            str_mul "=" 80 +:+ nl;
            "Total Displays Found: 2" +:+ nl ]
          ++ printed (print_display_details d1)
          ++ printed (print_display_details d2)).
  split; [done|]. split; [done|]. split.
  - rewrite !length_app, !print_display_details_length. reflexivity.
  - intros out. rewrite (print_display_report_prints_only [d1; d2] out).
    rewrite print_display_report_printed.
    cbn [mbind list_bind mjoin list_join fmap list_fmap].
    rewrite (print_folder_suggestion_printed d1 id1 Hid1),
      (print_folder_suggestion_printed d2 id2 Hid2),
      (print_config_entry_printed d1 id1 Hid1),
      (print_config_entry_printed d2 id2 Hid2),
      (print_option1_entry_printed d1 id1 Hid1),
      (print_option1_entry_printed d2 id2 Hid2).
    unfold print_option2_entry, print_option3_entry, print_option4_entry.
    rewrite !printed_print.
    rewrite Hw1, Hh1, Hx1, Hy1, Hw2, Hh2, Hx2, Hy2.
    rewrite <- !app_assoc. reflexivity.
Qed.

Lemma C7_two_display_report_witness :
  exists (id1 id2 : string) (before : stdout),
    id1 = "GSM5BBB_4&1a2b3c" /\ id2 = "0001" /\ length before = 38%nat
    /\ exists rest, (print_display_report [primary_example; secondary_example] []).2
                    = before ++ rest.
Proof.
  destruct (C7_two_display_report primary_example secondary_example)
    as (id1 & id2 & before & H1 & H2 & Hlen & Hout); try reflexivity.
  exists id1, id2, before.
  split; [by injection H1|]. split; [by injection H2|]. split; [done|].
  eexists. rewrite Hout. reflexivity.
Defined.

(** ** The raw bitmask *)

Lemma same_but_state_flags_eq (d d' : display_info) :
  same_but_state_flags d d' -> d' = with_state_flags (state_flags d') d.
Proof.
  destruct d, d'. unfold same_but_state_flags, with_state_flags. cbn.
  intros (-> & -> & -> & -> & -> & -> & -> & -> & -> & -> & -> & -> & ->).
  reflexivity.
Qed.

Lemma for_each_related {A : Type} (R : A -> A -> Prop) (body : A -> M unit)
    (xs ys : list A) :
  (forall x y, R x y -> body x = body y) ->
  Forall2 R xs ys -> for_each xs body = for_each ys body.
Proof.
  intros Hbody. induction 1 as [|x y xs ys Hxy _ IH]; [done|].
  cbn [for_each]. by rewrite (Hbody x y Hxy), IH.
Qed.

(** No loop body of the report reads [state_flags]. *)
Lemma report_bodies_ignore_state_flags (d d' : display_info) :
  same_but_state_flags d d' ->
  print_display_details d = print_display_details d'
  /\ print_folder_suggestion d = print_folder_suggestion d'
  /\ print_config_entry d = print_config_entry d'
  /\ print_option1_entry d = print_option1_entry d'
  /\ print_option2_entry d = print_option2_entry d'
  /\ print_option3_entry d = print_option3_entry d'
  /\ print_option4_entry d = print_option4_entry d'.
Proof.
  intros ->%same_but_state_flags_eq. repeat split; reflexivity.
Qed.

Lemma print_display_report_ignores_state_flags (displays displays' : list display_info) :
  Forall2 same_but_state_flags displays displays' ->
  print_display_report displays = print_display_report displays'.
Proof.
  intros Hsame. unfold print_display_report.
  rewrite (Forall2_length _ _ _ Hsame).
  rewrite (for_each_related _ print_display_details _ _
             (fun d d' H => proj1 (report_bodies_ignore_state_flags d d' H)) Hsame).
  rewrite (for_each_related _ print_folder_suggestion _ _
             (fun d d' H => proj1 (proj2 (report_bodies_ignore_state_flags d d' H))) Hsame).
  rewrite (for_each_related _ print_config_entry _ _
             (fun d d' H => proj1 (proj2 (proj2
                (report_bodies_ignore_state_flags d d' H)))) Hsame).
  rewrite (for_each_related _ print_option1_entry _ _
             (fun d d' H => proj1 (proj2 (proj2 (proj2
                (report_bodies_ignore_state_flags d d' H))))) Hsame).
  rewrite (for_each_related _ print_option2_entry _ _
             (fun d d' H => proj1 (proj2 (proj2 (proj2 (proj2
                (report_bodies_ignore_state_flags d d' H)))))) Hsame).
  rewrite (for_each_related _ print_option3_entry _ _
             (fun d d' H => proj1 (proj2 (proj2 (proj2 (proj2 (proj2
                (report_bodies_ignore_state_flags d d' H))))))) Hsame).
  rewrite (for_each_related _ print_option4_entry _ _
             (fun d d' H => proj2 (proj2 (proj2 (proj2 (proj2 (proj2
                (report_bodies_ignore_state_flags d d' H))))))) Hsame).
  reflexivity.
Qed.

Lemma enumerate_from_built (api : win32api)
    (pending : list (result (option DISPLAY_DEVICE)))
    (device_num : Z) (displays : list display_info) :
  pending ⊆ device_answers api ->
  Forall (built_from_answer api) displays ->
  Forall (built_from_answer api) (enumerate_from api pending device_num displays).
Proof.
  revert device_num displays.
  induction pending as [|answer later IH]; intros device_num displays Hsub Hacc;
    cbn [enumerate_from]; [done|].
  destruct answer as [[device|]|e]; try done.
  apply IH; [set_solver|].
  destruct (truthy _); [|done].
  unfold append_display_info.
  destruct (EnumDisplaySettings api (DeviceName device)) as [settings|e]; [|done].
  apply Forall_app. split; [done|]. apply Forall_singleton.
  exists device. cbn. split; [set_solver|done].
Qed.

(** C9. The report does not depend on [state_flags]: two sequences of
    records that agree on every field but [state_flags] ([is_primary]
    included) give the same run of [print_display_report], outcome and
    output alike.  The field is stored all the same: each record of
    [get_display_info] carries the [StateFlags] of the device it was built
    from. *)
Theorem C9_report_ignores_state_flags (displays displays' : list display_info)
    (Hsame : Forall2 same_but_state_flags displays displays') :
  (forall out, print_display_report displays out = print_display_report displays' out)
  /\ (forall api, Forall (built_from_answer api) (get_display_info api)).
Proof.
  split.
  - intros out. by rewrite (print_display_report_ignores_state_flags _ _ Hsame).
  - intros api. by apply enumerate_from_built.
Qed.

Lemma C9_report_ignores_state_flags_witness :
  print_display_report [primary_example; secondary_example] []
  = print_display_report [with_state_flags 0x8000005 primary_example;
                          with_state_flags 0 secondary_example] [].
Proof.
  apply (C9_report_ignores_state_flags
           [primary_example; secondary_example]
           [with_state_flags 0x8000005 primary_example;
            with_state_flags 0 secondary_example]).
  repeat constructor.
Defined.

(** ** The enumeration loop *)

Lemma append_display_info_eq (api : win32api) (device_num : Z)
    (device : DISPLAY_DEVICE) (displays : list display_info) :
  append_display_info api device_num device displays
  = match EnumDisplaySettings api (DeviceName device) with
    | Ok settings => displays ++ [make_display_info device_num device settings]
    | Raise _ => displays
    end.
Proof. reflexivity. Qed.

Lemma reported_at_here (api : win32api) (answer : result (option DISPLAY_DEVICE))
    (later : list (result (option DISPLAY_DEVICE)))
    (device : DISPLAY_DEVICE) (settings : DEVMODE) :
  reported_at api (answer :: later) 0 device settings
  <-> answer = Ok (Some device)
      /\ truthy (Z.land (StateFlags device)
                        win32con.DISPLAY_DEVICE_ATTACHED_TO_DESKTOP) = true
      /\ EnumDisplaySettings api (DeviceName device) = Ok settings.
Proof.
  unfold reported_at, devices_up_to. cbn [lookup list_lookup]. split.
  - intros (Hans & _ & Hatt & Hset). by injection Hans as ->.
  - intros (-> & Hatt & Hset). repeat split; try done. intros j Hj. lia.
Qed.

Lemma reported_at_later (api : win32api) (first : DISPLAY_DEVICE)
    (later : list (result (option DISPLAY_DEVICE))) (i : nat)
    (device : DISPLAY_DEVICE) (settings : DEVMODE) :
  reported_at api (Ok (Some first) :: later) (S i) device settings
  <-> reported_at api later i device settings.
Proof.
  unfold reported_at, devices_up_to. cbn [lookup list_lookup]. split.
  - intros (Hans & Hpre & Hatt & Hset). repeat split; try done.
    intros j Hj. apply (Hpre (S j)). lia.
  - intros (Hans & Hpre & Hatt & Hset). repeat split; try done.
    intros [|j] Hj; [by exists first|]. apply Hpre. lia.
Qed.

Lemma reported_at_after_stop (api : win32api)
    (answer : result (option DISPLAY_DEVICE))
    (later : list (result (option DISPLAY_DEVICE))) (i : nat)
    (device : DISPLAY_DEVICE) (settings : DEVMODE) :
  (forall first, answer <> Ok (Some first)) ->
  ~ reported_at api (answer :: later) i device settings.
Proof.
  intros Hstop (Hans & Hpre & _). destruct i as [|i].
  - cbn in Hans. injection Hans as ->. by apply (Hstop device).
  - destruct (Hpre 0%nat) as [first Hfirst]; [lia|].
    cbn in Hfirst. injection Hfirst as ->. by apply (Hstop first).
Qed.

(** What the loop adds to the records it starts with. *)
Lemma enumerate_from_elem (api : win32api)
    (pending : list (result (option DISPLAY_DEVICE)))
    (device_num : Z) (displays : list display_info) (d : display_info) :
  d ∈ enumerate_from api pending device_num displays
  <-> d ∈ displays
      \/ exists i device settings,
           reported_at api pending i device settings
           /\ d = make_display_info (device_num + Z.of_nat i) device settings.
Proof.
  revert device_num displays.
  induction pending as [|answer later IH]; intros device_num displays.
  - cbn [enumerate_from]. split; [by left|].
    intros [Hd|(i & device & settings & (Hans & _) & _)]; [done|].
    by rewrite lookup_nil in Hans.
  - destruct answer as [[first|]|e]; cbn [enumerate_from].
    2,3: split; [by left|];
         intros [Hd|(i & device & settings & Hrep & _)]; [done|];
         by apply reported_at_after_stop in Hrep.
    rewrite IH. rewrite append_display_info_eq. split.
    + intros [Hd|(i & device & settings & Hrep & ->)].
      * destruct (truthy _) eqn:Hatt; [|by left].
        destruct (EnumDisplaySettings api (DeviceName first)) as [st|e] eqn:Hset;
          [|by left].
        apply elem_of_app in Hd as [Hd|Hd%list_elem_of_singleton]; [by left|].
        right. exists 0%nat, first, st. rewrite reported_at_here.
        rewrite Hd. repeat split; try done. f_equal; lia.
      * right. exists (S i), device, settings. rewrite reported_at_later.
        split; [done|]. f_equal; lia.
    + intros [Hd|(i & device & settings & Hrep & ->)].
      * left. destruct (truthy _); [|done].
        destruct (EnumDisplaySettings api (DeviceName first)); [|done].
        apply elem_of_app. by left.
      * destruct i as [|i].
        -- apply reported_at_here in Hrep as (Hfirst & Hatt & Hset).
           injection Hfirst as <-. left. rewrite Hatt, Hset.
           apply elem_of_app. right. apply list_elem_of_singleton. f_equal; lia.
        -- rewrite reported_at_later in Hrep. right.
           exists i, device, settings. split; [done|]. f_equal; lia.
Qed.

(** X1. The records [get_display_info] returns are exactly those of the
    devices that are answered before the first failing call, are attached to
    the desktop and have readable settings; [index] is the number of the
    call that answered with the device, and the other fields are copied from
    the device and its settings. *)
Theorem get_display_info_reports (api : win32api) (d : display_info) :
  d ∈ get_display_info api
  <-> exists i device settings,
        reported_at api (device_answers api) i device settings
        /\ d = make_display_info (Z.of_nat i) device settings.
Proof.
  unfold get_display_info. rewrite enumerate_from_elem. split.
  - intros [Hd|Hd]; [by apply elem_of_nil in Hd | exact Hd].
  - intros Hd. by right.
Qed.

Lemma enumerate_from_indices (api : win32api)
    (pending : list (result (option DISPLAY_DEVICE)))
    (device_num : Z) (displays : list display_info) :
  StronglySorted Z.lt (index <$> displays) ->
  Forall (fun d => index d < device_num) displays ->
  StronglySorted Z.lt (index <$> enumerate_from api pending device_num displays)
  /\ Forall (fun d => index d < device_num + Z.of_nat (length pending))
            (enumerate_from api pending device_num displays).
Proof.
  revert device_num displays.
  induction pending as [|answer later IH]; intros device_num displays Hsorted Hbelow;
    cbn [enumerate_from].
  - split; [done|]. eapply Forall_impl; [exact Hbelow|]. intros d Hd; simpl in *; lia.
  - assert (Forall (fun d => index d < device_num + Z.of_nat (length (answer :: later)))
              displays) as Hstop.
    { eapply Forall_impl; [exact Hbelow|]. intros d Hd; simpl in *; lia. }
    destruct answer as [[device|]|e]; try done.
    replace (device_num + Z.of_nat (length (Ok (Some device) :: later)))
      with (device_num + 1 + Z.of_nat (length later)) by (cbn [length]; lia).
    apply IH.
    + destruct (truthy _); [|done]. rewrite append_display_info_eq.
      destruct (EnumDisplaySettings api (DeviceName device)) as [settings|e]; [|done].
      rewrite fmap_app. apply StronglySorted_app_2.
      * intros x1 x2 (d1 & -> & Hd1)%list_elem_of_fmap Hx2.
        apply list_elem_of_singleton in Hx2 as ->. cbn.
        by apply (proj1 (Forall_forall _ _) Hbelow).
      * done.
      * repeat constructor.
    + assert (Forall (fun d => index d < device_num + 1) displays) as Hnext.
      { eapply Forall_impl; [exact Hbelow|]. intros d Hd; simpl in *; lia. }
      destruct (truthy _); [|done]. rewrite append_display_info_eq.
      destruct (EnumDisplaySettings api (DeviceName device)) as [settings|e]; [|done].
      apply Forall_app. split; [done|]. apply Forall_singleton. cbn. lia.
Qed.

(** X2. The records come out in enumeration order with strictly increasing
    [index] values, each a call number between 0 and the number of answers;
    so no two records share an index and there are at most as many records
    as answers. *)
Theorem get_display_info_indices (api : win32api) :
  StronglySorted Z.lt (index <$> get_display_info api)
  /\ Forall (fun d => 0 <= index d < Z.of_nat (length (device_answers api)))
            (get_display_info api)
  /\ NoDup (index <$> get_display_info api).
Proof.
  destruct (enumerate_from_indices api (device_answers api) 0 [])
    as [Hsorted Hbelow]; [constructor | constructor |].
  fold (get_display_info api) in Hsorted, Hbelow.
  split; [done|]. split.
  - apply Forall_forall. intros d Hd. split.
    + unfold get_display_info in Hd.
      apply enumerate_from_elem in Hd as [Hd|(i & device & settings & _ & ->)];
        [by apply elem_of_nil in Hd|]. cbn. lia.
    + by apply (proj1 (Forall_forall _ _) Hbelow).
  - revert Hsorted. generalize (index <$> get_display_info api).
    induction 1 as [|x l Hl IH Hx]; constructor; [|done].
    intros Hin. apply (proj1 (Forall_forall _ _) Hx) in Hin. lia.
Qed.

Lemma enumerate_from_stops (api : win32api)
    (before after : list (result (option DISPLAY_DEVICE)))
    (stop : result (option DISPLAY_DEVICE))
    (device_num : Z) (displays : list display_info) :
  (forall device, stop <> Ok (Some device)) ->
  enumerate_from api (before ++ stop :: after) device_num displays
  = enumerate_from api before device_num displays.
Proof.
  intros Hstop. revert device_num displays.
  induction before as [|answer before IH]; intros device_num displays.
  - cbn. destruct stop as [[device|]|e]; try done. by destruct (Hstop device).
  - cbn [app enumerate_from]. destruct answer as [[device|]|e]; try done.
Qed.

Lemma enumerate_from_settings (api api' : win32api)
    (pending : list (result (option DISPLAY_DEVICE)))
    (device_num : Z) (displays : list display_info) :
  (forall name, EnumDisplaySettings api name = EnumDisplaySettings api' name) ->
  enumerate_from api pending device_num displays
  = enumerate_from api' pending device_num displays.
Proof.
  intros Hsame. revert device_num displays.
  induction pending as [|answer later IH]; intros device_num displays; [done|].
  cbn [enumerate_from]. destruct answer as [[device|]|e]; try done.
  rewrite !append_display_info_eq, Hsame. apply IH.
Qed.

(** X3. The first call that raises -- whatever the exception,
    [KeyboardInterrupt] included -- or that answers with a falsy value ends
    the enumeration: the answers after it are never asked for, and the
    result is what it would be had the enumeration ended there. *)
Theorem get_display_info_stops_at_first_failure
    (before after : list (result (option DISPLAY_DEVICE)))
    (settings : string -> result DEVMODE) (e : exn) :
  get_display_info {| device_answers := before ++ Raise e :: after;
                      EnumDisplaySettings := settings |}
  = get_display_info {| device_answers := before; EnumDisplaySettings := settings |}
  /\ get_display_info {| device_answers := before ++ Ok Datatypes.None :: after;
                         EnumDisplaySettings := settings |}
     = get_display_info {| device_answers := before; EnumDisplaySettings := settings |}.
Proof.
  unfold get_display_info. cbn [device_answers].
  split; rewrite enumerate_from_stops by done; by apply enumerate_from_settings.
Qed.

Lemma get_display_info_reports_witness :
  make_display_info 2
    {| DeviceName := "\\.\DISPLAY3"; DeviceString := "Generic PnP Monitor";
       DeviceID := "MONITOR\DEL4066\0001";
       DeviceKey := "\Registry\Machine\0001"; StateFlags := 1 |}
    {| PelsWidth := 1080; PelsHeight := 1920; Position_x := 1920; Position_y := 0;
       DisplayFrequency := 60; BitsPerPel := 32; DisplayOrientation := 1 |}
  ∈ get_display_info example_api.
Proof.
  apply (proj2 (get_display_info_reports example_api _)).
  eexists 2%nat, _, _. split; [|reflexivity].
  repeat split. intros [|[|j]] Hj; [eexists; reflexivity ..|simpl in Hj; lia].
Defined.

(** ** Whole runs *)

Lemma main_found (api : win32api) (out : stdout) :
  get_display_info api <> [] ->
  main api out
  = (Ok tt,
     out ++ [ nl +:+ "🖥️  Detecting connected displays...";
              found_line (get_display_info api) ]
         ++ printed (print_display_report (get_display_info api))
         ++ closing_lines).
Proof.
  intros Hfound. unfold main, main_calling.
  destruct (get_display_info api) as [|d ds]; [done|].
  unfold mbind, M_bind, mret, M_ret, print.
  rewrite (print_display_report_prints_only (d :: ds)).
  unfold found_line, closing_lines. cbn [app].
  by rewrite <- !app_assoc.
Qed.

(** X4. When at least one display is found, [main] prints the detection
    line, the number of displays, the whole report and the three closing
    lines, and returns normally; the script then ends with exit status 0. *)
Theorem main_reports_displays (api : win32api) (out : stdout)
    (Hfound : get_display_info api <> []) :
  main api out
  = (Ok tt,
     out ++ [ nl +:+ "🖥️  Detecting connected displays...";
              found_line (get_display_info api) ]
         ++ printed (print_display_report (get_display_info api))
         ++ closing_lines)
  /\ script api out = main api out
  /\ exit_status (script api out).1 = 0.
Proof.
  pose proof (main_found api out Hfound) as Hmain.
  split; [exact Hmain|].
  assert (script api out = main api out) as Hscript
    by (unfold script, run_guarded; by rewrite Hmain).
  split; [exact Hscript|]. by rewrite Hscript, Hmain.
Qed.

Lemma main_reports_displays_witness :
  exit_status (script example_api []).1 = 0.
Proof.
  apply (main_reports_displays example_api []). discriminate.
Defined.

(** ** More on [extract_display_id] *)

Lemma str_contains_append (c : ascii) (a b : string) :
  str_contains c (a +:+ b) = str_contains c a || str_contains c b.
Proof.
  induction a as [|x a IH]; [done|].
  change (str_contains c (String x (a +:+ b))
          = str_contains c (String x a) || str_contains c b).
  cbn [str_contains]. by rewrite IH, orb_assoc.
Qed.

Lemma str_split_piece_free (sep : ascii) (s p : string) :
  p ∈ str_split sep s -> str_contains sep p = false.
Proof.
  intros Hp. by apply (proj1 (Forall_forall _ _) (str_split_pieces sep s)).
Qed.

(** X7. The id built from a text with at least three [#]-pieces contains
    no [#]; the id of a text with fewer pieces contains no backslash. *)
Theorem extract_display_id_separator_free (s id : string)
    (Hid : extract_display_id (Str s) = Ok id) :
  ((3 <= length (str_split "#" s))%nat -> str_contains "#" id = false)
  /\ ((length (str_split "#" s) < 3)%nat -> str_contains "\" id = false).
Proof.
  split; intros Hlen.
  - destruct (lookup_lt_is_Some_2 (str_split "#" s) 1) as [p1 H1]; [lia|].
    destruct (lookup_lt_is_Some_2 (str_split "#" s) 2) as [p2 H2]; [lia|].
    rewrite (extract_display_id_hash_parts s p1 p2 H1 H2) in Hid.
    injection Hid as <-. rewrite !str_contains_append.
    rewrite (str_split_piece_free "#" s p1), (str_split_piece_free "#" s p2);
      [done | by eapply list_elem_of_lookup_2 ..].
  - destruct (last_is_Some (str_split "\" s) (str_split_not_nil _ s)) as [seg Hseg].
    rewrite (extract_display_id_last_segment s seg Hlen Hseg) in Hid.
    injection Hid as <-. apply (str_split_piece_free "\" s).
    rewrite last_lookup in Hseg. by eapply list_elem_of_lookup_2.
Qed.

Lemma extract_display_id_separator_free_witness :
  str_contains "#" "GSM5BBB_4&1a2b3c" = false.
Proof.
  refine (proj1 (extract_display_id_separator_free
                   "MONITOR\GSM5BBB#GSM5BBB#4&1a2b3c" "GSM5BBB_4&1a2b3c" _) _).
  - reflexivity.
  - apply Nat.leb_le. reflexivity.
Defined.

(** X8. Only the second and the third [#]-piece count: two device ids that
    share them get the same id, whatever their first piece and whatever
    follows the third piece, so distinct displays can receive one id. *)
Theorem extract_display_id_collision (a a' b c rest rest' : string)
    (Ha : str_contains "#" a = false) (Ha' : str_contains "#" a' = false)
    (Hb : str_contains "#" b = false) (Hc : str_contains "#" c = false) :
  extract_display_id (Str (a +:+ "#" +:+ b +:+ "#" +:+ c +:+ "#" +:+ rest))
  = extract_display_id (Str (a' +:+ "#" +:+ b +:+ "#" +:+ c +:+ "#" +:+ rest'))
  /\ extract_display_id (Str (a +:+ "#" +:+ b +:+ "#" +:+ c +:+ "#" +:+ rest))
     = extract_display_id (Str (a' +:+ "#" +:+ b +:+ "#" +:+ c)).
Proof.
  destruct (extract_display_id_second_third a b c Ha Hb Hc) as [_ Hrest].
  destruct (extract_display_id_second_third a' b c Ha' Hb Hc) as [Hplain Hrest'].
  by rewrite Hrest, Hrest', Hplain.
Qed.

Lemma extract_display_id_collision_witness :
  extract_display_id (Str "\\?\DISPLAY#DEL4066#5&1111&0&UID256#{guid-a}")
  = extract_display_id (Str "MONITOR#DEL4066#5&1111&0&UID256#{guid-b}").
Proof.
  apply (extract_display_id_collision "\\?\DISPLAY" "MONITOR" "DEL4066"
           "5&1111&0&UID256" "{guid-a}" "{guid-b}"); reflexivity.
Defined.

(** X9. The handler is entered exactly for the inputs that are not [str]:
    on a [str] the body of the [try] never raises, on every other built-in
    value it does, and then the result is ["UNKNOWN"]. *)
Theorem extract_display_id_handler (v : value) :
  ((exists e, extract_display_id_try v = Raise e) <-> forall s, v <> Str s)
  /\ ((forall s, v <> Str s) -> extract_display_id v = Ok "UNKNOWN").
Proof.
  assert (forall s, exists id, extract_display_id_try (Str s) = Ok id) as Hstr.
  { intros s. destruct (extract_display_id_returns (Str s)) as [id Hid].
    unfold extract_display_id in Hid.
    destruct (extract_display_id_try (Str s)) as [id'|e] eqn:Htry; [by exists id'|].
    exfalso. revert Htry. unfold extract_display_id_try. cbn [split mbind result_bind].
    destruct (Z.leb_spec 3 (Z.of_nat (length (str_split "#" s)))).
    - destruct (lookup_lt_is_Some_2 (str_split "#" s) 1) as [p1 H1]; [lia|].
      destruct (lookup_lt_is_Some_2 (str_split "#" s) 2) as [p2 H2]; [lia|].
      pose proof (getitem_lookup _ _ _ H1) as G1.
      pose proof (getitem_lookup _ _ _ H2) as G2.
      change (Z.of_nat 1) with 1 in G1. change (Z.of_nat 2) with 2 in G2.
      by rewrite G1, G2.
    - destruct (last_is_Some (str_split "\" s) (str_split_not_nil _ s)) as [seg Hseg].
      by rewrite (getitem_last _ seg Hseg). }
  split; [split|].
  - intros [e He] s ->. destruct (Hstr s) as [id Hid]. congruence.
  - intros Hv. destruct v as [| | |s| | |]; try (eexists; reflexivity).
    by destruct (Hv s).
  - intros Hv. destruct v as [| | |s| | |]; try reflexivity. by destruct (Hv s).
Qed.

Lemma extract_display_id_handler_witness :
  extract_display_id (Int 7) = Ok "UNKNOWN".
Proof.
  apply (proj2 (extract_display_id_handler (Int 7))). discriminate.
Defined.

Lemma str_split_last (sep : ascii) (a b : string) :
  str_contains sep b = false ->
  exists piece pieces,
    str_split sep (a +:+ String sep b) = piece :: pieces /\ last pieces = Some b.
Proof.
  intros Hb. induction a as [|c a (piece & pieces & Hsplit & Hlast)].
  - exists "", [b]. split; [|done].
    change ("" +:+ String sep b) with (String sep b). cbn [str_split].
    by rewrite Ascii.eqb_refl, (str_split_whole sep b Hb).
  - change (String c a +:+ String sep b) with (String c (a +:+ String sep b)).
    cbn [str_split]. rewrite Hsplit. destruct (Ascii.eqb c sep).
    + exists "", (piece :: pieces). split; [done|].
      destruct pieces; [done|]. exact Hlast.
    + by exists (String c piece), pieces.
Qed.

(** X10. For a text without [#], the id is what follows the last
    backslash, and the text itself when it has no backslash either. *)
Theorem extract_display_id_after_last_backslash (a b : string)
    (Ha : str_contains "#" a = false) (Hb : str_contains "#" b = false)
    (Hb' : str_contains "\" b = false) :
  extract_display_id (Str (a +:+ "\" +:+ b)) = Ok b
  /\ extract_display_id (Str b) = Ok b.
Proof.
  split.
  - destruct (str_split_last "\" a b Hb') as (piece & pieces & Hsplit & Hlast).
    rewrite append_one_char. apply extract_display_id_last_segment.
    + rewrite str_split_whole; [cbn; lia|].
      rewrite str_contains_append. cbn [str_contains]. by rewrite Ha, Hb.
    + rewrite Hsplit. destruct pieces; [done|]. exact Hlast.
  - apply extract_display_id_last_segment.
    + rewrite (str_split_whole _ b Hb). cbn. lia.
    + by rewrite (str_split_whole _ b Hb').
Qed.

Lemma extract_display_id_after_last_backslash_witness :
  extract_display_id (Str "MONITOR\DEL4066\0001") = Ok "0001".
Proof.
  apply (extract_display_id_after_last_backslash "MONITOR\DEL4066" "0001");
    reflexivity.
Defined.

(** ** More on the two orientation helpers *)

(** X11. Swapping width and height swaps "Landscape" and "Portrait" and
    keeps "Square"; and for every size the lower-case word of the folder and
    configuration sections is the word of the detail block. *)
Theorem classify_orientation_mirror (w h : Z) :
  (classify_orientation w h = "Landscape" /\ classify_orientation h w = "Portrait"
   /\ classify_orientation_lower w h = "landscape" /\ w > h)
  \/ (classify_orientation w h = "Portrait" /\ classify_orientation h w = "Landscape"
      /\ classify_orientation_lower w h = "portrait" /\ w < h)
  \/ (classify_orientation w h = "Square" /\ classify_orientation h w = "Square"
      /\ classify_orientation_lower w h = "square" /\ w = h).
Proof.
  unfold classify_orientation, classify_orientation_lower. rewrite !Z.gtb_ltb.
  destruct (Z.lt_trichotomy w h) as [Hlt|[Heq|Hgt]].
  - right; left. rewrite (proj2 (Z.ltb_ge h w)), (proj2 (Z.ltb_lt w h)) by lia.
    repeat split; lia.
  - right; right. subst h. rewrite Z.ltb_irrefl. repeat split.
  - left. rewrite (proj2 (Z.ltb_lt h w)), (proj2 (Z.ltb_ge w h)) by lia.
    repeat split; lia.
Qed.

Lemma str_length_append (a b : string) :
  String.length (a +:+ b) = (String.length a + String.length b)%nat.
Proof.
  induction a as [|c a IH]; [done|].
  change (String.length (String c (a +:+ b))
          = S (String.length a + String.length b)).
  cbn [String.length]. by rewrite IH.
Qed.

Lemma str_append_cancel_r (a b s : string) : a +:+ s = b +:+ s -> a = b.
Proof.
  revert b. induction a as [|c a IH]; intros [|c' b] Heq; [done| | |].
  - change (s = String c' (b +:+ s)) in Heq.
    apply (f_equal String.length) in Heq. cbn [String.length] in Heq.
    rewrite str_length_append in Heq. lia.
  - change (String c (a +:+ s) = s) in Heq.
    apply (f_equal String.length) in Heq. cbn [String.length] in Heq.
    rewrite str_length_append in Heq. lia.
  - change (String c (a +:+ s) = String c' (b +:+ s)) in Heq.
    injection Heq as -> Heq. by rewrite (IH b Heq).
Qed.

(** [int(str(n)) == n]: the decimal text determines the integer. *)
Lemma str_int_inj (m n : Z) : str_int m = str_int n -> m = n.
Proof.
  assert (forall z, NilZero.int_of_string (str_int z) = Some (Z.to_int z)) as Hparse.
  { intros z. apply NilZero.isi; destruct z as [|p|p]; cbn; try discriminate;
      intros [= Hnil]; by apply (Unsigned.to_uint_nonnil p). }
  intros Heq. apply to_int_inj.
  pose proof (Hparse m) as Hm. rewrite Heq, Hparse in Hm. by injection Hm.
Qed.

Lemma get_orientation_name_other (code : Z) :
  code <> 0 -> code <> 1 -> code <> 2 -> code <> 3 ->
  get_orientation_name code = "Unknown (" +:+ str_int code +:+ "°)".
Proof.
  intros H0 H1 H2 H3. unfold get_orientation_name, orientations.
  by rewrite !lookup_insert_ne, lookup_singleton_ne by done.
Qed.

(** X12. Different rotation codes get different labels: the label printed
    in the detail block identifies the code, also for the codes outside
    0..3. *)
Theorem get_orientation_name_inj (code code' : Z) (Hne : code <> code') :
  get_orientation_name code <> get_orientation_name code'.
Proof.
  intros Heq. apply Hne. revert Heq.
  assert (forall c, c = 0 \/ c = 1 \/ c = 2 \/ c = 3
                    \/ (c <> 0 /\ c <> 1 /\ c <> 2 /\ c <> 3)) as Hcases by lia.
  destruct (Hcases code) as [->|[->|[->|[->|(H0 & H1 & H2 & H3)]]]];
    destruct (Hcases code') as [->|[->|[->|[->|(H0' & H1' & H2' & H3')]]]];
    try reflexivity; try (intros Heq; discriminate Heq);
    rewrite ?(get_orientation_name_other code) by done;
    rewrite ?(get_orientation_name_other code') by done;
    try (intros Heq; discriminate Heq).
  intros Heq. apply (inj (String.append "Unknown (")) in Heq.
  apply str_append_cancel_r in Heq. by apply str_int_inj.
Qed.

Lemma get_orientation_name_inj_witness :
  get_orientation_name 4 <> get_orientation_name 40.
Proof.
  apply (get_orientation_name_inj 4 40). lia.
Defined.

(** ** The report for any number of displays *)

Lemma bind_singleton_fmap {A B : Type} (f : A -> B) (xs : list A) :
  xs ≫= (fun x => [f x]) = f <$> xs.
Proof. induction xs as [|x xs IH]; [done|]. cbn. by f_equal. Qed.

Lemma bind_ext {A B : Type} (f g : A -> list B) (xs : list A) :
  (forall x, f x = g x) -> xs ≫= f = xs ≫= g.
Proof.
  intros Hfg. induction xs as [|x xs IH]; [done|].
  cbn. fold (xs ≫= f) (xs ≫= g). by rewrite Hfg, IH.
Qed.

Lemma extract_display_id_simple_id_of (d : display_info) :
  extract_display_id (Str (device_id d)) = Ok (simple_id_of d).
Proof.
  with_simple_id d. unfold simple_id_of. by rewrite Hid.
Qed.

(** X13. For every sequence of displays the report runs to its end.  It
    makes 30 + 28 n calls of [print] for n displays; after the 4 calls of
    the header and the 17 calls of each detail block, the texts printed are
    those of the folder suggestions (the two paths of each display, in
    enumeration order), of the main.js configuration and of the four
    alternative methods, each with exactly one entry per display in
    enumeration order. *)
Theorem print_display_report_sections (displays : list display_info) (out : stdout) :
  exists before : stdout,
    length before = (4 + 17 * length displays)%nat
    /\ length (printed (print_display_report displays)) = (30 + 28 * length displays)%nat
    /\ print_display_report displays out
       = (Ok tt,
          out ++ before
          ++ [ str_mul "=" 80;
               str_mul " " 25 +:+ "FOLDER NAME SUGGESTIONS";
               str_mul "=" 80 +:+ nl;
               "Create these folders in C:\ for your videos:" +:+ nl ]
          ++ (displays ≫= (fun d =>
                [ "Display " +:+ str_int (index d) +:+ ": " +:+ device_string d
                    +:+ " (" +:+ str_int (width d) +:+ "x" +:+ str_int (height d)
                    +:+ " " +:+ classify_orientation_lower (width d) (height d) +:+ ")";
                  "  C:\" +:+ simple_id_of d +:+ "_default\video.mp4";
                  "  C:\" +:+ simple_id_of d +:+ "_trigger\video.mp4";
                  "" ]))
          ++ [ str_mul "=" 80;
               str_mul " " 22 +:+ "CONFIGURATION FOR main.js";
               str_mul "=" 80 +:+ nl;
               "Add this to DISPLAY_VIDEO_CONFIG in main.js:" +:+ nl;
               "const DISPLAY_VIDEO_CONFIG = {" ]
          ++ (displays ≫= (fun d =>
                [ "  // " +:+ device_string d +:+ " (" +:+ str_int (width d) +:+ "x"
                    +:+ str_int (height d) +:+ " "
                    +:+ classify_orientation_lower (width d) (height d) +:+ ")";
                  "  '" +:+ simple_id_of d +:+ "': 'your_custom_name',";
                  "" ]))
          ++ [ "};" +:+ nl;
               str_mul "=" 80;
               str_mul " " 20 +:+ "ALTERNATIVE IDENTIFICATION METHODS";
               str_mul "=" 80 +:+ nl;
               "Option 1: By Simple ID (Extracted from Device ID)";
               "const DISPLAY_VIDEO_CONFIG = {" ]
          ++ ((fun d => "  '" +:+ simple_id_of d +:+ "': 'folder_name',") <$> displays)
          ++ [ "};" +:+ nl; "Option 2: By Resolution"; "const DISPLAY_VIDEO_CONFIG = {" ]
          ++ ((fun d => "  '" +:+ str_int (width d) +:+ "x" +:+ str_int (height d)
                        +:+ "': 'folder_name',") <$> displays)
          ++ [ "};" +:+ nl; "Option 3: By Position"; "const DISPLAY_VIDEO_CONFIG = {" ]
          ++ ((fun d => "  'x" +:+ str_int (position_x d) +:+ "_y"
                        +:+ str_int (position_y d) +:+ "': 'folder_name',") <$> displays)
          ++ [ "};" +:+ nl; "Option 4: By Monitor Name (only if different)";
               "const DISPLAY_VIDEO_CONFIG = {" ]
          ++ ((fun d => "  '" +:+ device_string d +:+ "': 'folder_name',") <$> displays)
          ++ [ "};" +:+ nl; str_mul "=" 80 +:+ nl ]).
Proof.
  exists ([ nl +:+ str_mul "=" 80;
            str_mul " " 25 +:+ "DISPLAY DETECTION REPORT";
            str_mul "=" 80 +:+ nl;
            "Total Displays Found: " +:+ str_int (Z.of_nat (length displays)) +:+ nl ]
          ++ (displays ≫= (fun d => printed (print_display_details d)))).
  assert (forall (f : display_info -> stdout) (k : nat),
            (forall d, length (f d) = k) ->
            length (displays ≫= f) = (k * length displays)%nat) as Hlen.
  { intros f k Hf. induction displays as [|d ds IH]; cbn; [lia|].
    rewrite length_app, Hf. fold (ds ≫= f). rewrite IH. lia. }
  split; [|split].
  - rewrite length_app, (Hlen _ 17%nat print_display_details_length). cbn. lia.
  - rewrite print_display_report_printed. rewrite !length_app.
    rewrite (Hlen _ 17%nat print_display_details_length).
    rewrite (Hlen (fun d => printed (print_folder_suggestion d)) 4%nat),
      (Hlen (fun d => printed (print_config_entry d)) 3%nat),
      (Hlen (fun d => printed (print_option1_entry d)) 1%nat),
      (Hlen (fun d => printed (print_option2_entry d)) 1%nat),
      (Hlen (fun d => printed (print_option3_entry d)) 1%nat),
      (Hlen (fun d => printed (print_option4_entry d)) 1%nat); try done.
    + cbn [length]. lia.
    + intros d. by rewrite (print_option1_entry_printed d _
                              (extract_display_id_simple_id_of d)).
    + intros d. by rewrite (print_config_entry_printed d _
                              (extract_display_id_simple_id_of d)).
    + intros d. by rewrite (print_folder_suggestion_printed d _
                              (extract_display_id_simple_id_of d)).
  - rewrite (print_display_report_prints_only displays out).
    rewrite print_display_report_printed.
    erewrite (bind_ext (fun d => printed (print_folder_suggestion d)))
      by (intros d; exact (print_folder_suggestion_printed d _
                             (extract_display_id_simple_id_of d))).
    erewrite (bind_ext (fun d => printed (print_config_entry d)))
      by (intros d; exact (print_config_entry_printed d _
                             (extract_display_id_simple_id_of d))).
    erewrite (bind_ext (fun d => printed (print_option1_entry d)))
      by (intros d; exact (print_option1_entry_printed d _
                             (extract_display_id_simple_id_of d))).
    erewrite (bind_ext (fun d => printed (print_option2_entry d)))
      by (intros d; unfold print_option2_entry; apply printed_print).
    erewrite (bind_ext (fun d => printed (print_option3_entry d)))
      by (intros d; unfold print_option3_entry; apply printed_print).
    erewrite (bind_ext (fun d => printed (print_option4_entry d)))
      by (intros d; unfold print_option4_entry; apply printed_print).
    rewrite !bind_singleton_fmap. rewrite <- !app_assoc. reflexivity.
Qed.
